(** * TIM chat backend: syllabus cache, course detection, context assembly

    A shallow embedding of the Express server of the repository (the
    variant that carries the syllabus cache, [findCourseFromUserText] and
    the clarification gate) together with the properties its specification
    states about it.

    Conventions of the embedding:
    - JavaScript strings are [string]s holding the UTF-8 bytes of the text;
    - values that arrive as JSON (request bodies) are [JS.Value]s;
    - [async] functions become state-passing functions over [Store], which
      holds the module-level [syllabusCache] and a log of the effects the
      code performs (HTTP GETs, calls of the model client, console output);
    - a JavaScript exception is the [Throw] completion. *)

From Stdlib Require Import ZArith Ascii String List DecimalString Bool Lia.
From stdpp Require Import base option list strings gmap.

Set Warnings "-register-all".
Local Open Scope string_scope.
Local Open Scope Z_scope.
Local Open Scope list_scope.

(** ** Strings *)

Module Str.

(** [t.includes(a)]: [a] occurs in [t] as a contiguous run. *)
Fixpoint includes (t a : string) : bool :=
  String.prefix a t ||
  match t with
  | EmptyString => false
  | String _ t' => includes t' a
  end.

(** [xs.join(sep)] on an array of strings. *)
Fixpoint join (sep : string) (xs : list string) : string :=
  match xs with
  | [] => ""
  | [x] => x
  | x :: rest => x +:+ sep +:+ join sep rest
  end.

(** [s.slice(-n)]: the last [n] characters, the whole string when it is
    shorter. *)
Definition slice_last (n : nat) (s : string) : string :=
  String.substring (String.length s - n) n s.

(** [Boolean(s)] for a string. *)
Definition nonempty (s : string) : bool :=
  match s with EmptyString => false | String _ _ => true end.

Definition of_nat (n : nat) : string := NilZero.string_of_uint (Nat.to_uint n).
Definition of_Z (z : Z) : string := NilZero.string_of_int (Z.to_int z).

(** ASCII case folding, byte by byte. *)
Definition lower_ascii (c : ascii) : ascii :=
  let n := nat_of_ascii c in
  if (65 <=? n)%nat && (n <=? 90)%nat then ascii_of_nat (n + 32) else c.

Fixpoint map_bytes (f : ascii -> ascii) (s : string) : string :=
  match s with
  | EmptyString => EmptyString
  | String c s' => String (f c) (map_bytes f s')
  end.

(** The declarative reading of [includes]. *)
Definition occurs_in (a t : string) : Prop :=
  exists pre post, t = pre +:+ a +:+ post.

End Str.

(** ** JavaScript values and completions *)

Module JS.

(** A thrown [Error] object: its [name] and its [message]. *)
Record Error := mkError { name : string; message : string }.

Definition plainError (msg : string) : Error := mkError "Error" msg.
Definition typeError (msg : string) : Error := mkError "TypeError" msg.

(** [String(e)] for an [Error]. *)
Definition errorToString (e : Error) : string :=
  if Str.nonempty (message e)
  then (if Str.nonempty (name e) then name e +:+ ": " +:+ message e else message e)
  else name e.

Inductive Completion (A : Type) : Type :=
| Normal (a : A)
| Throw (e : Error).
Arguments Normal {A} a.
Arguments Throw {A} e.

(** JSON data as the handlers see it. A number is carried by its
    [Number::toString] rendering: the code never computes with a number it
    received, it only tests it for truthiness and prints it. *)
Inductive Value : Type :=
| VUndefined
| VNull
| VBool (b : bool)
| VNum (repr : string)
| VStr (s : string)
| VArr (items : list Value)
| VObj (props : list (string * Value)).

(** [Boolean(v)] *)
Definition truthy (v : Value) : bool :=
  match v with
  | VUndefined | VNull => false
  | VBool b => b
  | VNum r => negb (String.eqb r "0" || String.eqb r "NaN")
  | VStr s => Str.nonempty s
  | VArr _ | VObj _ => true
  end.

Fixpoint own (k : string) (props : list (string * Value)) : option Value :=
  match props with
  | [] => None
  | (k', v) :: rest => if String.eqb k k' then Some v else own k rest
  end.

(** [v?.k] for a key that no prototype defines ([role], [content],
    [messages]): the own property of an object, [undefined] otherwise. *)
Definition optProp (k : string) (v : Value) : Value :=
  match v with
  | VObj ps => match own k ps with Some x => x | None => VUndefined end
  | _ => VUndefined
  end.

(** [v.k] and destructuring [{ k } = v]: as [optProp], except that
    [undefined] and [null] have no properties at all. *)
Definition getProp (k : string) (v : Value) : Completion Value :=
  match v with
  | VUndefined | VNull =>
      Throw (typeError ("Cannot destructure property '" +:+ k +:+ "'"))
  | _ => Normal (optProp k v)
  end.

Definition isArray (v : Value) : bool :=
  match v with VArr _ => true | _ => false end.

Definition strictEqStr (v : Value) (s : string) : bool :=
  match v with VStr s' => String.eqb s' s | _ => false end.

(** [v.toString()] / [String(v)] on JSON data. An object that carries an
    own [toString] entry has a non-callable one, so the call throws; arrays
    print their elements joined by commas, with [null] printed as the empty
    string. *)
Fixpoint toString (v : Value) : Completion string :=
  match v with
  | VUndefined => Normal "undefined"
  | VNull => Normal "null"
  | VBool b => Normal (if b then "true" else "false")
  | VNum r => Normal r
  | VStr s => Normal s
  | VArr items =>
      (fix joinItems (l : list Value) : Completion string :=
         match l with
         | [] => Normal ""
         | x :: rest =>
             let hd := match x with
                       | VUndefined | VNull => Normal ""
                       | _ => toString x
                       end in
             match hd with
             | Throw e => Throw e
             | Normal s =>
                 match rest with
                 | [] => Normal s
                 | _ :: _ =>
                     match joinItems rest with
                     | Throw e => Throw e
                     | Normal r => Normal (s +:+ "," +:+ r)
                     end
                 end
             end
         end) items
  | VObj ps =>
      match own "toString" ps with
      | Some _ => Throw (typeError "toString is not a function")
      | None => Normal "[object Object]"
      end
  end.

Definition msg (role content : string) : Value :=
  VObj [("role", VStr role); ("content", VStr content)].

End JS.

Export JS(Completion, Normal, Throw, Value, VUndefined, VNull, VBool, VNum, VStr, VArr, VObj).

(** ** The syllabus index *)

(** One entry of the index document: [aliases] and [syllabus_url] are both
    optional in the code ([meta.aliases || []], [?.syllabus_url]). *)
Record CourseMeta := mkMeta {
  aliases : option (list string);
  syllabus_url : option string
}.

(** The parsed index: course name to metadata, in the order in which
    [Object.entries] enumerates the object. *)
Definition CourseIndex := list (string * CourseMeta).

(** [Object.keys(indexObj)] *)
Definition Object_keys (indexObj : CourseIndex) : list string := map fst indexObj.

(** [indexObj[name]] *)
Fixpoint index_get (indexObj : CourseIndex) (name : string) : option CourseMeta :=
  match indexObj with
  | [] => None
  | (k, meta) :: rest => if String.eqb k name then Some meta else index_get rest name
  end.

(** ** Built-ins the code calls

    [String.prototype.toLowerCase] follows the Unicode case tables and
    [JSON.parse] is the platform's parser, read here at the type of the index
    document; a syntax error is a [Throw]. Both are taken as given. *)
Class Builtins := {
  toLowerCase : string -> string;
  toLowerCase_empty : toLowerCase "" = "";
  JSON_parse : string -> Completion CourseIndex
}.

(** ** Configuration: the module-level constants read from the environment *)
Record Config := mkConfig {
  PROVIDER : string;
  SYLLABI_INDEX_URL : option string;
  SYLLABI_CACHE_TTL_MS : Z
}.

(** ** The outside world *)

(** What [fetch(url, { method: GET })] followed by [resp.text()] settles
    to: a rejection, or a response with its status and its body text. *)
Inductive HttpReply :=
| FetchRejected (e : JS.Error)
| HttpResponse (status : nat) (text : string).

(** [resp.ok] *)
Definition resp_ok (status : nat) : bool := (200 <=? status)%nat && (status <=? 299)%nat.

(** What the exchange with the chat-completion endpoint settles to: the
    request or the decoding of its body is rejected, the response is not
    [ok], or it is and [content] is what
    [data.choices?.[0]?.message?.content ?? (empty string)] evaluates to. *)
Inductive ModelReply :=
| PostRejected (e : JS.Error)
| ModelError (status : nat) (text : string)
| ModelOk (content : string).

Record World := mkWorld {
  http_get : string -> HttpReply;
  openai : list Value -> ModelReply
}.

(** ** Module state and effects *)

(** [syllabusCache.index] *)
Record IndexEntry := mkIndexEntry {
  index_value : option CourseIndex;
  index_fetchedAt : Z
}.

(** An entry of [syllabusCache.byUrl] *)
Record TextEntry := mkTextEntry {
  text_value : string;
  text_fetchedAt : Z
}.

Record SyllabusCache := mkCache {
  index : IndexEntry;
  byUrl : gmap string TextEntry
}.

(** The cache as the module creates it. *)
Definition syllabusCache0 : SyllabusCache :=
  mkCache (mkIndexEntry None 0) ∅.

(** What a run does to the outside, in the order it does it. *)
Inductive Effect :=
| HttpGet (url : string)              (* fetchText issued a GET *)
| ModelCall (messages : list Value)   (* callLLM was entered *)
| OpenAIPost (messages : list Value)  (* callLLM issued its POST *)
| ConsoleError (text : string).       (* console.error *)

Record Store := mkStore {
  syllabusCache : SyllabusCache;
  effects : list Effect
}.

Definition store0 : Store := mkStore syllabusCache0 [].

(** An [async] function of the module: it runs from a store to a completion
    and the store it leaves. *)
Definition Async (A : Type) : Type := Store -> Completion A * Store.

Definition ret {A} (a : A) : Async A := fun s => (Normal a, s).
Definition throw {A} (e : JS.Error) : Async A := fun s => (Throw e, s).
Definition bind {A B} (m : Async A) (k : A -> Async B) : Async B :=
  fun s => match m s with
           | (Normal a, s') => k a s'
           | (Throw e, s') => (Throw e, s')
           end.
Definition tryCatch {A} (m : Async A) (handler : JS.Error -> Async A) : Async A :=
  fun s => match m s with
           | (Normal a, s') => (Normal a, s')
           | (Throw e, s') => handler e s'
           end.
Definition emit (e : Effect) : Async unit :=
  fun s => (Normal tt, mkStore (syllabusCache s) (effects s ++ [e])).
Definition getCache : Async SyllabusCache := fun s => (Normal (syllabusCache s), s).
Definition setCache (c : SyllabusCache) : Async unit :=
  fun s => (Normal tt, mkStore c (effects s)).
Definition lift {A} (c : Completion A) : Async A := fun s => (c, s).

Notation "'await' x <- m ; k" := (bind m (fun x => k))
  (at level 10, x name, m at level 100, k at level 200).
Notation "'exec' m ; k" := (bind m (fun _ => k))
  (at level 10, m at level 100, k at level 200).

Section Server.

Context `{B : Builtins}.
Variable cfg : Config.
Variable world : World.

(** [fetchText(url)] *)
Definition fetchText (url : string) : Async string :=
  exec emit (HttpGet url);
  match http_get world url with
  | FetchRejected e => throw e
  | HttpResponse status text =>
      if negb (resp_ok status)
      then throw (JS.plainError ("Failed to fetch " +:+ url +:+ ": " +:+ Str.of_nat status))
      else ret text
  end.

(** [getSyllabiIndex()]; [now] is what [Date.now()] returns in it. *)
Definition getSyllabiIndex (now : Z) : Async CourseIndex :=
  match SYLLABI_INDEX_URL cfg with
  | None => throw (JS.plainError "Missing SYLLABI_INDEX_URL env var")
  | Some indexUrl =>
      if negb (Str.nonempty indexUrl)
      then throw (JS.plainError "Missing SYLLABI_INDEX_URL env var")
      else
        await c <- getCache;
        match index_value (index c),
              now - index_fetchedAt (index c) <? SYLLABI_CACHE_TTL_MS cfg with
        | Some v, true => ret v
        | _, _ =>
            await raw <- fetchText indexUrl;
            await parsed <- lift (JSON_parse raw);
            await c' <- getCache;
            exec setCache (mkCache (mkIndexEntry (Some parsed) now) (byUrl c'));
            ret parsed
        end
  end.

(** [getSyllabusText(url)]; [now] is what [Date.now()] returns in it. *)
Definition getSyllabusText (now : Z) (url : string) : Async string :=
  await c <- getCache;
  let refresh : Async string :=
    await text <- fetchText url;
    await c' <- getCache;
    exec setCache (mkCache (index c') (<[url := mkTextEntry text now]> (byUrl c')));
    ret text in
  match byUrl c !! url with
  | Some cached =>
      if now - text_fetchedAt cached <? SYLLABI_CACHE_TTL_MS cfg
      then ret (text_value cached)
      else refresh
  | None => refresh
  end.

(** The lower-cased, non-empty names a course answers to:
    [[courseName, ...(meta.aliases || [])].map(lower).filter(Boolean)]. *)
Definition aliasList (courseName : string) (meta : CourseMeta) : list string :=
  List.filter Str.nonempty
    (List.map toLowerCase
       (courseName :: match aliases meta with Some l => l | None => [] end)).

(** [findCourseFromUserText(indexObj, userText)]; [None] is [null]. *)
Fixpoint findCourseFromUserText (indexObj : CourseIndex) (userText : string)
  : option string :=
  let t := toLowerCase userText in
  match indexObj with
  | [] => None
  | (courseName, meta) :: rest =>
      if List.existsb (fun a => Str.includes t a) (aliasList courseName meta)
      then Some courseName
      else findCourseFromUserText rest userText
  end.

(** [callLLM(messages)] *)
Definition callLLM (messages : list Value) : Async string :=
  exec emit (ModelCall messages);
  if negb (String.eqb (PROVIDER cfg) "openai")
  then throw (JS.plainError
                ("Unsupported PROVIDER=" +:+ PROVIDER cfg +:+ ". Set PROVIDER=openai."))
  else
    exec emit (OpenAIPost messages);
    match openai world messages with
    | PostRejected e => throw e
    | ModelError status text =>
        exec emit (ConsoleError ("OpenAI error: " +:+ Str.of_nat status +:+ " " +:+ text));
        throw (JS.plainError "OpenAI API error")
    | ModelOk content => ret content
    end.

End Server.

(** ** The chat endpoint *)

Definition nl : string := String (ascii_of_nat 10) EmptyString.
Definition dquote : string := String (ascii_of_nat 34) EmptyString.

(** What the handler reads off [new Date()]: the local month and year, and
    the three [Intl.DateTimeFormat] renderings in Europe/Vienna. *)
Record DateObj := mkDate {
  getMonth : Z;
  getFullYear : Z;
  viennaDate : string;
  viennaTime : string;
  viennaWeekday : string
}.

(** [univieSemesterLabel(dateObj)] of server.js, whose chat handler calls it
    and drops the result. *)
Definition univieSemesterLabel (dateObj : DateObj) : string :=
  let m := getMonth dateObj + 1 in
  let y := getFullYear dateObj in
  if (3 <=? m) && (m <=? 6) then "SS " +:+ Str.of_Z y
  else if (10 <=? m) && (m <=? 12)
       then "WS " +:+ Str.of_Z y +:+ "/" +:+ Str.slice_last 2 (Str.of_Z (y + 1))
  else if m =? 1
       then "WS " +:+ Str.of_Z (y - 1) +:+ "/" +:+ Str.slice_last 2 (Str.of_Z y)
  else "Semester break (" +:+ Str.of_Z y +:+ ")".

(** The clock readings of one chat request: [new Date()] in the handler and
    [Date.now()] in each of the two cache reads. *)
Record RequestClock := mkClock {
  requestDate : DateObj;
  indexReadAt : Z;
  syllabusReadAt : Z
}.

Inductive Body :=
| JsonBody (v : Value)
| TextBody (s : string).

Record Response := mkResponse { status : nat; body : Body }.

(** [res.json(obj)] and [res.status(n).json(obj)] *)
Definition json (status : nat) (props : list (string * Value)) : Response :=
  mkResponse status (JsonBody (VObj props)).

(** The alternatives of the keyword pattern of the handler. *)
Definition keywords : list string :=
  [ "prüfung"; "exam"; "deadline"; "anmeldung"; "registration"; "note";
    "grading"; "bewertung"; "attendance"; "anwesenheit"; "raum"; "room";
    "termin"; "date"; "uhrzeit"; "time" ].

(** Case folding as the [i] flag applies it to this pattern: the ASCII
    letters, and U+00DC for the one non-ASCII letter of the pattern (bytes
    C3 9C and C3 BC in UTF-8). *)
Fixpoint caseFold (afterC3 : bool) (s : string) : string :=
  match s with
  | EmptyString => EmptyString
  | String c rest =>
      let n := nat_of_ascii c in
      let c' := if afterC3 && (n =? 156)%nat then ascii_of_nat 188
                else Str.lower_ascii c in
      String c' (caseFold (n =? 195)%nat rest)
  end.

(** [/prüfung|exam|...|time/i.test(text)] *)
Definition needsCourseTest (text : string) : bool :=
  List.existsb (fun k => Str.includes (caseFold false text) k) keywords.

(** [[...messages].reverse().find(m => m?.role === <user>)] *)
Definition lastUser (messages : list Value) : Value :=
  match List.find (fun m => JS.strictEqStr (JS.optProp "role" m) "user") (rev messages) with
  | Some m => m
  | None => VUndefined
  end.

(** [(lastUser?.content || <empty>).toString()] *)
Definition lastUserText (messages : list Value) : Completion string :=
  let c := JS.optProp "content" (lastUser messages) in
  if JS.truthy c then JS.toString c else Normal "".

Definition runtimeContextMessage (d : DateObj) (lastText : string) : Value :=
  JS.msg "system"
    ("Runtime context (authoritative):" +:+ nl +:+
     "- Timezone: Europe/Vienna" +:+ nl +:+
     "- Today: " +:+ viennaWeekday d +:+ ", " +:+ viennaDate d +:+ nl +:+
     "- Current time: " +:+ viennaTime d +:+ nl +:+
     "Rules:" +:+ nl +:+
     "- If ANY prior message (including assistant messages) conflicts with the runtime context, correct it." +:+ nl +:+
     "- Interpret " +:+ dquote +:+ "today/tomorrow/next week" +:+ dquote +:+ " using the runtime date." +:+ nl +:+
     "- Reply in the same language as the user's last message." +:+ nl +:+
     "User last message:" +:+ nl +:+ lastText +:+ nl).

Definition personaText : string :=
  "You are the official student assistant for the Chair of Technology and Innovation Management (TIM)." +:+ nl +:+ nl +:+
  "Institutional context:" +:+ nl +:+
  "- Chair: Technology and Innovation Management (TIM)" +:+ nl +:+
  "- Institute: Institut für Rechnungswesen, Innovation und Strategie" +:+ nl +:+
  "- Faculty: Faculty of Business, Economics and Statistics" +:+ nl +:+
  "- University: University of Vienna" +:+ nl +:+
  "- TIM offers multiple courses as part of one specialization within Business Administration, International Business, and related curricula." +:+ nl +:+ nl +:+
  "Scope and authority:" +:+ nl +:+
  "- You support students taking ANY TIM course." +:+ nl +:+
  "- You answer organizational and content-related questions reliably and confidently." +:+ nl +:+
  "- Organizational information must be grounded in the official syllabus first." +:+ nl +:+
  "- If information is not in the syllabus, it may be confirmed via official University of Vienna websites." +:+ nl +:+
  "- Never invent dates, rules, or requirements." +:+ nl +:+ nl +:+
  "Course disambiguation rule:" +:+ nl +:+
  "- If a question depends on a specific TIM course and the course is not clearly specified, ask ONE short clarifying question naming the relevant course options." +:+ nl +:+
  "- Do not guess which course the student means." +:+ nl +:+ nl +:+
  "Answer policy:" +:+ nl +:+
  "- If a question can be answered with available information, answer it immediately." +:+ nl +:+
  "- Do NOT ask follow-up questions unless essential information is missing." +:+ nl +:+
  "- For organizational questions, respond in 1–2 short sentences." +:+ nl +:+
  "- For content-related questions, respond concisely but completely." +:+ nl +:+
  "- Avoid greetings, small talk, or closing questions." +:+ nl +:+
  "- Avoid hedging language (e.g., 'voraussichtlich', 'meistens') unless uncertainty is real and unavoidable." +:+ nl +:+ nl +:+
  "Language and clarity:" +:+ nl +:+
  "- Always reply in the language of the user's last message." +:+ nl +:+
  "- Use clear, student-friendly wording." +:+ nl +:+
  "- State facts directly and precisely." +:+ nl +:+ nl +:+
  "Fallback behavior:" +:+ nl +:+
  "- If information is not available or cannot be verified, say so explicitly and indicate where the student should check next (e.g., syllabus, official website, course coordinator)." +:+ nl +:+
  "- Do not speculate." +:+ nl +:+ nl +:+
  "Stop after the answer.".

Definition systemMessage : Value := JS.msg "system" personaText.

Definition syllabusMessage (detectedCourse syllabusText : string) : Value :=
  JS.msg "system"
    ("Authoritative syllabus (use this first). Course: " +:+ detectedCourse +:+ nl +:+
     "Rules:" +:+ nl +:+
     "- For organizational questions, answer ONLY if the answer is in this syllabus text." +:+ nl +:+
     "- If not in syllabus, say so and ask one clarifying question or suggest checking official Uni Wien pages." +:+ nl +:+ nl +:+
     syllabusText).

Definition clarification (courseList : list string) : string :=
  "Für welchen TIM-Kurs meinst du das? (" +:+ Str.join " / " courseList +:+ ")".

(** Truthiness of [detectedCourse] (a course name or [null]) and of a
    [syllabus_url] (a string or [undefined]). *)
Definition truthyStr (o : option string) : bool :=
  match o with Some s => Str.nonempty s | None => false end.

(** How the inner [try] block of the handler ends: it returned a response,
    or it ran through and left [syllabusContextMessage] ([None] is [null]). *)
Inductive Flow :=
| Returned (r : Response)
| Through (syllabusContextMessage : option Value).

(** [[rt, sys, syl, ...messages]] or [[rt, sys, ...messages]] *)
Definition outbound (rt sys : Value) (syllabusContextMessage : option Value)
                    (messages : list Value) : list Value :=
  match syllabusContextMessage with
  | Some syl => rt :: sys :: syl :: messages
  | None => rt :: sys :: messages
  end.

(** Evaluating an identifier that the module scope does not bind. *)
Definition unresolved {A : Type} (identifier : string) : Async A :=
  throw (JS.mkError "ReferenceError" (identifier +:+ " is not defined")).

Section Handlers.

Context `{B : Builtins}.
Variable cfg : Config.
Variable world : World.

(** The block that loads the index, detects the course and either asks
    back or prepares the syllabus message. *)
Definition syllabusBlock (clock : RequestClock) (lastText : string) : Async Flow :=
  tryCatch
    (await indexObj <- getSyllabiIndex cfg world (indexReadAt clock);
     let detectedCourse := findCourseFromUserText indexObj lastText in
     let needsCourse := needsCourseTest lastText in
     let courseList := Object_keys indexObj in
     if negb (truthyStr detectedCourse) && needsCourse && (1 <? length courseList)%nat
     then ret (Returned (json 200 [("reply", VStr (clarification courseList))]))
     else
       match detectedCourse with
       | Some name =>
           if Str.nonempty name
           then
             let url := index_get indexObj name ≫= syllabus_url in
             match url with
             | Some u =>
                 if Str.nonempty u
                 then
                   await syllabusText <- getSyllabusText cfg world (syllabusReadAt clock) u;
                   ret (Through (Some (syllabusMessage name syllabusText)))
                 else ret (Through None)
             | None => ret (Through None)
             end
           else ret (Through None)
       | None => ret (Through None)
       end)
    (fun e =>
       exec emit (ConsoleError ("Syllabus loading failed: " +:+ JS.errorToString e));
       ret (Through None)).

(** [app.post(/api/chat)]: [reqBody] is [req.body]. The statements follow
    the handler in order. The module that holds this handler imports
    express, cors and dotenv and declares no [univieSemesterLabel], so the
    statement that computes the semester label throws a ReferenceError
    inside the outer [try]; the statements after it are never reached. *)
Definition post_api_chat (clock : RequestClock) (reqBody : Value) : Async Response :=
  tryCatch
    (await messages <- lift (JS.getProp "messages" reqBody);
     match messages with
     | VArr messages =>
         let now := requestDate clock in
         await semesterLabel <- unresolved (A := string) "univieSemesterLabel";
         await lastText <- lift (lastUserText messages);
         await flow <- syllabusBlock clock lastText;
         match flow with
         | Returned r => ret r
         | Through syllabusContextMessage =>
             let out := outbound (runtimeContextMessage now lastText) systemMessage
                                 syllabusContextMessage messages in
             await reply <- callLLM cfg world out;
             ret (json 200 [("reply", VStr reply)])
         end
     | _ => ret (json 400 [("error", VStr "messages must be an array")])
     end)
    (fun err =>
       exec emit (ConsoleError (JS.errorToString err));
       ret (json 500 [("error", VStr "Server error")])).

(** [app.get(/debug/syllabi-index)]; [now] is the clock reading of the
    index read. *)
Definition get_debug_syllabi_index (now : Z) : Async Response :=
  tryCatch
    (await idx <- getSyllabiIndex cfg world now;
     ret (json 200 [("ok", VBool true);
                    ("courses", VArr (List.map VStr (Object_keys idx)))]))
    (fun e =>
       let shown := if Str.nonempty (JS.message e) then JS.message e
                    else JS.errorToString e in
       ret (json 500 [("ok", VBool false); ("error", VStr shown)])).

End Handlers.

(** ** Notions the properties are stated with *)

(** The course of [entry] answers to the (already lower-cased) text [t]:
    its name or one of its declared aliases, lower-cased, is not empty and
    occurs in [t]. *)
Definition answersTo `{B : Builtins} (t : string) (entry : string * CourseMeta) : Prop :=
  exists a,
    In a (fst entry :: match aliases (snd entry) with Some l => l | None => [] end)
    /\ toLowerCase a <> ""
    /\ Str.occurs_in (toLowerCase a) t.

(** What [fetchText(url)] completes with, read off the world. *)
Definition fetchResult (world : World) (url : string) : Completion string :=
  match http_get world url with
  | FetchRejected e => Throw e
  | HttpResponse status text =>
      if resp_ok status then Normal text
      else Throw (JS.plainError ("Failed to fetch " +:+ url +:+ ": " +:+ Str.of_nat status))
  end.

(** What fetching and decoding the index document completes with. *)
Definition indexFetch `{B : Builtins} (world : World) (url : string)
  : Completion CourseIndex :=
  match fetchResult world url with
  | Normal raw => JSON_parse raw
  | Throw e => Throw e
  end.

(** The store after one more effect. *)
Definition logged (s : Store) (e : Effect) : Store :=
  mkStore (syllabusCache s) (effects s ++ [e]).

(** The store after the index slot was overwritten. *)
Definition withIndex (s : Store) (v : CourseIndex) (now : Z) : Store :=
  mkStore (mkCache (mkIndexEntry (Some v) now) (byUrl (syllabusCache s))) (effects s).

(** The store after the entry of [url] was overwritten. *)
Definition withText (s : Store) (url text : string) (now : Z) : Store :=
  mkStore (mkCache (index (syllabusCache s))
                   (<[url := mkTextEntry text now]> (byUrl (syllabusCache s))))
          (effects s).

(** ** Sample data for the worked instances *)

(** Built-ins restricted to ASCII case folding, with a given decoder. *)
Definition sampleBuiltins (parse : string -> Completion CourseIndex) : Builtins :=
  {| toLowerCase := Str.map_bytes Str.lower_ascii;
     toLowerCase_empty := eq_refl;
     JSON_parse := parse |}.

Definition sampleIndexUrl : string := "https://tim.example/syllabi/index.json".
Definition sampleSyllabusUrl : string := "https://tim.example/syllabi/innovation.txt".

Definition sampleIndex : CourseIndex :=
  [ ("Innovation", mkMeta (Some ["inno"; ""]) (Some sampleSyllabusUrl));
    ("Strategy", mkMeta None None) ].

Definition sampleParse (raw : string) : Completion CourseIndex :=
  if String.eqb raw "INDEX" then Normal sampleIndex
  else Throw (JS.mkError "SyntaxError" "Unexpected token").

Definition sampleB : Builtins := sampleBuiltins sampleParse.

Definition sampleConfig : Config := mkConfig "openai" (Some sampleIndexUrl) 900000.

(** A world in which both documents are served and the model answers. *)
Definition sampleWorld : World :=
  mkWorld
    (fun url =>
       if String.eqb url sampleIndexUrl then HttpResponse 200 "INDEX"
       else if String.eqb url sampleSyllabusUrl then HttpResponse 200 "Exam: 30 June."
       else HttpResponse 404 "not found")
    (fun _ => ModelOk "Antwort").

(** A world in which every GET is answered with 503, and one in which the
    index document is served but is not JSON. *)
Definition downWorld : World :=
  mkWorld (fun _ => HttpResponse 503 "unavailable") (fun _ => ModelOk "Antwort").
Definition garbledWorld : World :=
  mkWorld (fun _ => HttpResponse 200 "<html>") (fun _ => ModelOk "Antwort").

(** A store whose two cache entries were written at time 1000. *)
Definition warmStore : Store :=
  mkStore
    (mkCache (mkIndexEntry (Some [("Old", mkMeta None None)]) 1000)
             {[ sampleSyllabusUrl := mkTextEntry "old text" 1000 ]})
    [].

(** The payloads of the calls of the model client among some effects, and
    those of the POSTs it issued. *)
Definition modelCalls (l : list Effect) : list (list Value) :=
  flat_map (fun e => match e with ModelCall m => [m] | _ => [] end) l.
Definition openaiPosts (l : list Effect) : list (list Value) :=
  flat_map (fun e => match e with OpenAIPost m => [m] | _ => [] end) l.

(** [l] is what a run from [s] to [s'] added to the effect log. *)
Definition since (s s' : Store) (l : list Effect) : Prop :=
  effects s' = effects s ++ l.

(** What [callLLM(messages)] completes with, and what it does on the way. *)
Definition llmResult (cfg : Config) (world : World) (messages : list Value)
  : Completion string :=
  if String.eqb (PROVIDER cfg) "openai"
  then match openai world messages with
       | PostRejected e => Throw e
       | ModelError _ _ => Throw (JS.plainError "OpenAI API error")
       | ModelOk content => Normal content
       end
  else Throw (JS.plainError
                ("Unsupported PROVIDER=" +:+ PROVIDER cfg +:+ ". Set PROVIDER=openai.")).

Definition llmEffects (cfg : Config) (world : World) (messages : list Value)
  : list Effect :=
  if String.eqb (PROVIDER cfg) "openai"
  then match openai world messages with
       | ModelError status text =>
           [ModelCall messages; OpenAIPost messages;
            ConsoleError ("OpenAI error: " +:+ Str.of_nat status +:+ " " +:+ text)]
       | _ => [ModelCall messages; OpenAIPost messages]
       end
  else [ModelCall messages].

(** A course was detected in [lastText] and its syllabus text was
    retrieved: the index loaded, detection returned a course name that the
    handler's test accepts, the entry carries a usable [syllabus_url], and
    the read of that URL completed with [syllabusText]. *)
Definition syllabusRetrieved `{B : Builtins} (cfg : Config) (world : World)
    (clock : RequestClock) (lastText : string) (s : Store)
    (name syllabusText : string) : Prop :=
  exists indexObj s1 u s2,
    getSyllabiIndex cfg world (indexReadAt clock) s = (Normal indexObj, s1)
    /\ findCourseFromUserText indexObj lastText = Some name
    /\ name <> ""
    /\ index_get indexObj name ≫= syllabus_url = Some u
    /\ u <> ""
    /\ getSyllabusText cfg world (syllabusReadAt clock) u s1 = (Normal syllabusText, s2).

(** A message as the specification types it: an object with a [role] out
    of the three roles and a string [content]. *)
Definition wellFormedMessage (m : Value) : Prop :=
  exists role content,
    JS.optProp "role" m = VStr role
    /\ (role = "system" \/ role = "user" \/ role = "assistant")
    /\ JS.optProp "content" m = VStr content.

(** Requests of the worked instances. *)
Definition sampleClock : RequestClock :=
  mkClock (mkDate 5 2025 "2025-06-02" "10:15" "Monday") 5000 5001.

Definition chatBody (messages : list Value) : Value :=
  VObj [("messages", VArr messages)].

Definition examQuestion : list Value := [JS.msg "user" "When is the exam?"].
Definition innovationQuestion : list Value :=
  [JS.msg "user" "Hi"; JS.msg "assistant" "Hello."; JS.msg "user" "What is INNO about?"].
Definition noUserTurn : list Value :=
  [JS.msg "system" "Be brief."; JS.msg "assistant" "Hello."].

(** A deployment with another provider selected. *)
Definition otherProviderConfig : Config :=
  mkConfig "openrouter" (Some sampleIndexUrl) 900000.

(** The response of the chat handler to a completed call of the model
    client. *)
Definition chatResponse (c : Completion string) : Response :=
  match c with
  | Normal reply => json 200 [("reply", VStr reply)]
  | Throw _ => json 500 [("error", VStr "Server error")]
  end.

(** One of the two reads behind the syllabus block throws: the index read,
    or the read of the syllabus of the detected course. *)
Definition syllabusFetchThrows `{B : Builtins} (cfg : Config) (world : World)
    (clock : RequestClock) (lastText : string) (s : Store) : Prop :=
  (exists e s1, getSyllabiIndex cfg world (indexReadAt clock) s = (Throw e, s1))
  \/ (exists indexObj s1 name u e s2,
        getSyllabiIndex cfg world (indexReadAt clock) s = (Normal indexObj, s1)
        /\ findCourseFromUserText indexObj lastText = Some name
        /\ name <> ""
        /\ index_get indexObj name ≫= syllabus_url = Some u
        /\ u <> ""
        /\ getSyllabusText cfg world (syllabusReadAt clock) u s1 = (Throw e, s2)).

(** A deployment without an index location. *)
Definition unconfigured : Config := mkConfig "openai" None 900000.

(** A world whose index is served and whose syllabus documents are not. *)
Definition syllabusDownWorld : World :=
  mkWorld
    (fun url => if String.eqb url sampleIndexUrl then HttpResponse 200 "INDEX"
                else HttpResponse 404 "not found")
    (fun _ => ModelOk "Antwort").

(** Two courses of which the second has the longer matching name. *)
Definition overlappingIndex : CourseIndex :=
  [ ("Innovation", mkMeta None None);
    ("Innovation Lab", mkMeta (Some ["lab"]) None);
    ("Strategy", mkMeta None None) ].

(** ** The chat endpoint of server.js

    The variant of the handler without the syllabus block: same
    validation, same runtime-context message, a shorter persona, and the
    same model client. *)

Module ServerJs.

Definition systemMessage : Value :=
  JS.msg "system"
    ("You are the TIM Univie course assistant. " +:+
     "For organizational questions, answer in 1–3 sentences, friendly and concise. " +:+
     "If information is missing, ask one short clarifying question rather than guessing.").

(** [app.post(/api/chat)] of server.js; [now] is [new Date()]. *)
Definition post_api_chat (cfg : Config) (world : World) (now : DateObj) (reqBody : Value)
  : Async Response :=
  tryCatch
    (await messages <- lift (JS.getProp "messages" reqBody);
     match messages with
     | VArr messages =>
         let semesterLabel := univieSemesterLabel now in
         await lastText <- lift (lastUserText messages);
         await reply <- callLLM cfg world
                          (runtimeContextMessage now lastText :: systemMessage :: messages);
         ret (json 200 [("reply", VStr reply)])
     | _ => ret (json 400 [("error", VStr "messages must be an array")])
     end)
    (fun err =>
       exec emit (ConsoleError (JS.errorToString err));
       ret (json 500 [("error", VStr "Server error")])).

End ServerJs.

(** ** Further notions *)

(** The URLs of the GETs among some effects. *)
Definition httpGets (l : list Effect) : list string :=
  flat_map (fun e => match e with HttpGet u => [u] | _ => [] end) l.

(** Nothing is evicted from [c] to [c']: a loaded index stays loaded and
    every URL that has an entry keeps one. *)
Definition cacheGrows (c c' : SyllabusCache) : Prop :=
  (is_Some (index_value (index c)) -> is_Some (index_value (index c')))
  /\ (forall u, is_Some (byUrl c !! u) -> is_Some (byUrl c' !! u)).

(** Whether the byte before the position reached after [x] is C3, [b]
    telling it for the position before [x]. *)
Fixpoint carry (b : bool) (x : string) : bool :=
  match x with
  | EmptyString => b
  | String c rest => carry (nat_of_ascii c =? 195)%nat rest
  end.

(** Sample data: a deployment whose TTL is zero. *)
Definition zeroTtlConfig : Config := mkConfig "openai" (Some sampleIndexUrl) 0.

(** What one run adds to the log and does to the cache: [gets] bounds the
    number of GETs; the model client is not involved. *)
Definition quietRun (gets : nat) (s s' : Store) : Prop :=
  exists l, since s s' l
            /\ modelCalls l = [] /\ openaiPosts l = []
            /\ (length (httpGets l) <= gets)%nat
            /\ cacheGrows (syllabusCache s) (syllabusCache s').

(** ** The chat endpoint with the syllabus block, as deployed *)

(** What the handler leaves on the console when the semester label is
    computed, and the response its outer [catch] sends. *)
Definition semesterLabelError : Effect :=
  ConsoleError "ReferenceError: univieSemesterLabel is not defined".
Definition serverError : Response := json 500 [("error", VStr "Server error")].


(** * Properties *)

(** ** Strings *)

Lemma append_nil (b : string) : "" +:+ b = b.
Proof. reflexivity. Qed.

Lemma append_cons (c : ascii) (a b : string) : String c a +:+ b = String c (a +:+ b).
Proof. reflexivity. Qed.

Lemma prefix_spec (a t : string) :
  String.prefix a t = true <-> exists post, t = a +:+ post.
Proof.
  revert t. induction a as [|x a IH]; intros t.
  - split; [intros _; now exists t | now destruct t].
  - destruct t as [|y t]; simpl.
    + split; [discriminate | intros [post H]; discriminate].
    + destruct (ascii_dec x y) as [->|Hne]; split.
      * intros H. apply IH in H as [post ->]. now exists post.
      * intros [post H]. rewrite append_cons in H. inversion H; subst.
        apply IH. now exists post.
      * discriminate.
      * intros [post H]. rewrite append_cons in H. injection H as Hxy _. congruence.
Qed.

Lemma includes_nil (a : string) : Str.includes "" a = String.prefix a "" || false.
Proof. reflexivity. Qed.

Lemma includes_cons (c : ascii) (t a : string) :
  Str.includes (String c t) a = String.prefix a (String c t) || Str.includes t a.
Proof. reflexivity. Qed.

Lemma includes_spec (t a : string) :
  Str.includes t a = true <-> Str.occurs_in a t.
Proof.
  unfold Str.occurs_in. induction t as [|c t IH];
    [rewrite includes_nil | rewrite includes_cons]; split.
  - rewrite orb_false_r. intros H. apply prefix_spec in H as [post H].
    now exists "", post.
  - intros [pre [post H]]. rewrite orb_false_r. apply prefix_spec.
    destruct pre; [now exists post | discriminate].
  - intros H. apply orb_true_iff in H as [H | H].
    + apply prefix_spec in H as [post H]. now exists "", post.
    + apply IH in H as [pre [post H]]. exists (String c pre), post.
      rewrite append_cons. now rewrite H.
  - intros [pre [post H]]. apply orb_true_iff. destruct pre as [|c' pre].
    + left. apply prefix_spec. now exists post.
    + right. rewrite append_cons in H. injection H as _ Ht. apply IH. now exists pre, post.
Qed.

Lemma nonempty_spec (s : string) : Str.nonempty s = true <-> s <> "".
Proof. destruct s; simpl; split; congruence. Qed.

(** ** Course detection *)

Section Detection.

Context `{B : Builtins}.

Lemma aliasList_hit (t name : string) (meta : CourseMeta) :
  List.existsb (fun a => Str.includes t a) (aliasList name meta) = true
  <-> answersTo t (name, meta).
Proof.
  unfold answersTo, aliasList. cbn [fst snd]. rewrite existsb_exists. split.
  - intros [a [Hin Hinc]]. apply filter_In in Hin as [Hin Hne].
    apply in_map_iff in Hin as [a0 [<- Hin]].
    exists a0. repeat split; [exact Hin | now apply nonempty_spec | now apply includes_spec].
  - intros [a [Hin [Hne Hocc]]]. exists (toLowerCase a). split.
    + apply filter_In. split; [apply in_map_iff; now exists a | now apply nonempty_spec].
    + now apply includes_spec.
Qed.

Lemma findCourse_hit (t_of : string) (name : string) (meta : CourseMeta) (rest : CourseIndex) :
  answersTo (toLowerCase t_of) (name, meta) ->
  findCourseFromUserText ((name, meta) :: rest) t_of = Some name.
Proof.
  intros H. apply aliasList_hit in H. simpl. now rewrite H.
Qed.

Lemma findCourse_miss (t_of : string) (name : string) (meta : CourseMeta) (rest : CourseIndex) :
  ~ answersTo (toLowerCase t_of) (name, meta) ->
  findCourseFromUserText ((name, meta) :: rest) t_of = findCourseFromUserText rest t_of.
Proof.
  intros H. simpl.
  destruct (List.existsb _ (aliasList name meta)) eqn:E; [|reflexivity].
  apply aliasList_hit in E. contradiction.
Qed.

Lemma answersTo_dec (t : string) (entry : string * CourseMeta) :
  answersTo t entry \/ ~ answersTo t entry.
Proof.
  destruct entry as [name meta].
  destruct (List.existsb (fun a => Str.includes t a) (aliasList name meta)) eqn:E.
  - left. now apply aliasList_hit.
  - right. intros H. apply aliasList_hit in H. congruence.
Qed.

(** C4. Detection lower-cases the text and walks the index in order: the
    first course whose name or declared alias (lower-cased, empty ones
    dropped) occurs in the lower-cased text is returned, whatever matches
    after it; when no course answers, the result is [null]; and a returned
    name is always that of the first course that answers. *)
Theorem findCourse_first_match (indexObj : CourseIndex) (userText : string) :
  let t := toLowerCase userText in
  (forall before name meta after,
      indexObj = (before ++ (name, meta) :: after)%list ->
      (forall e, In e before -> ~ answersTo t e) ->
      answersTo t (name, meta) ->
      findCourseFromUserText indexObj userText = Some name)
  /\ ((forall e, In e indexObj -> ~ answersTo t e) ->
      findCourseFromUserText indexObj userText = None)
  /\ (forall name,
      findCourseFromUserText indexObj userText = Some name ->
      exists before meta after,
        indexObj = (before ++ (name, meta) :: after)%list
        /\ (forall e, In e before -> ~ answersTo t e)
        /\ answersTo t (name, meta)).
Proof.
  intros t. subst t. induction indexObj as [|[n m] rest IH].
  - repeat split.
    + intros before name meta after H. destruct before; discriminate.
    + intros name H. discriminate.
  - destruct IH as [IH1 [IH2 IH3]]. repeat split.
    + intros before name meta after Heq Hnone Hhit.
      destruct before as [|e before]; simpl in Heq; injection Heq as He Hrest.
      * inversion He; subst. now apply findCourse_hit.
      * subst e. rewrite findCourse_miss by (apply Hnone; now left).
        apply (IH1 before name meta after); auto.
        intros e He. apply Hnone. now right.
    + intros Hnone. rewrite findCourse_miss by (apply Hnone; now left).
      apply IH2. intros e He. apply Hnone. now right.
    + intros name Hres.
      destruct (answersTo_dec (toLowerCase userText) (n, m)) as [Hhit | Hmiss].
      * rewrite (findCourse_hit _ _ _ _ Hhit) in Hres. injection Hres as <-.
        exists [], m, rest. repeat split; [|exact Hhit]. intros e [].
      * rewrite (findCourse_miss _ _ _ _ Hmiss) in Hres.
        destruct (IH3 name Hres) as [before [meta [after [Heq [Hnone Hhit]]]]].
        exists ((n, m) :: before), meta, after. repeat split.
        -- simpl. now rewrite Heq.
        -- intros e [<- | He]; [exact Hmiss | now apply Hnone].
        -- exact Hhit.
Qed.

End Detection.

(** ** The cache *)

Section CacheFacts.

Context `{B : Builtins}.
Variable cfg : Config.
Variable world : World.

Lemma fetchText_run (url : string) (s : Store) :
  fetchText world url s = (fetchResult world url, logged s (HttpGet url)).
Proof.
  unfold fetchText, fetchResult, bind, emit, logged.
  destruct (http_get world url) as [e | status text]; [reflexivity|].
  now destruct (resp_ok status).
Qed.

Lemma getSyllabiIndex_unconfigured (now : Z) (s : Store) :
  truthyStr (SYLLABI_INDEX_URL cfg) = false ->
  getSyllabiIndex cfg world now s
  = (Throw (JS.plainError "Missing SYLLABI_INDEX_URL env var"), s).
Proof.
  unfold getSyllabiIndex, truthyStr.
  destruct (SYLLABI_INDEX_URL cfg) as [u|]; [|reflexivity].
  intros ->. reflexivity.
Qed.

Lemma getSyllabiIndex_fresh (u : string) (now : Z) (s : Store) (v : CourseIndex) :
  SYLLABI_INDEX_URL cfg = Some u -> u <> "" ->
  index_value (index (syllabusCache s)) = Some v ->
  now - index_fetchedAt (index (syllabusCache s)) < SYLLABI_CACHE_TTL_MS cfg ->
  getSyllabiIndex cfg world now s = (Normal v, s).
Proof.
  intros Hu Hne Hv Hage. unfold getSyllabiIndex. rewrite Hu.
  apply nonempty_spec in Hne. rewrite Hne. cbn [negb].
  unfold bind, getCache. rewrite Hv.
  apply Z.ltb_lt in Hage. now rewrite Hage.
Qed.

Lemma getSyllabiIndex_refresh (u : string) (now : Z) (s : Store) :
  SYLLABI_INDEX_URL cfg = Some u -> u <> "" ->
  index_value (index (syllabusCache s)) = None
  \/ SYLLABI_CACHE_TTL_MS cfg <= now - index_fetchedAt (index (syllabusCache s)) ->
  getSyllabiIndex cfg world now s
  = match indexFetch world u with
    | Normal parsed => (Normal parsed, withIndex (logged s (HttpGet u)) parsed now)
    | Throw e => (Throw e, logged s (HttpGet u))
    end.
Proof.
  intros Hu Hne Hmiss. unfold getSyllabiIndex. rewrite Hu.
  apply nonempty_spec in Hne. rewrite Hne. cbn [negb].
  unfold bind at 1. unfold getCache.
  assert (Hgo : forall k : Async CourseIndex,
             match index_value (index (syllabusCache s)),
                   now - index_fetchedAt (index (syllabusCache s))
                     <? SYLLABI_CACHE_TTL_MS cfg with
             | Some v, true => ret v
             | _, _ => k
             end = k).
  { intros k. destruct Hmiss as [-> | Hstale]; [reflexivity|].
    apply Z.ltb_ge in Hstale. rewrite Hstale.
    now destruct (index_value (index (syllabusCache s))). }
  rewrite Hgo. unfold bind, lift, setCache, ret, indexFetch.
  rewrite fetchText_run.
  destruct (fetchResult world u) as [raw | e]; [|reflexivity].
  now destruct (JSON_parse raw).
Qed.

Lemma getSyllabusText_fresh (url : string) (now : Z) (s : Store) (entry : TextEntry) :
  byUrl (syllabusCache s) !! url = Some entry ->
  now - text_fetchedAt entry < SYLLABI_CACHE_TTL_MS cfg ->
  getSyllabusText cfg world now url s = (Normal (text_value entry), s).
Proof.
  intros Hentry Hage. unfold getSyllabusText, bind, getCache. rewrite Hentry.
  apply Z.ltb_lt in Hage. now rewrite Hage.
Qed.

Lemma getSyllabusText_refresh (url : string) (now : Z) (s : Store) :
  byUrl (syllabusCache s) !! url = None
  \/ (exists entry, byUrl (syllabusCache s) !! url = Some entry
                    /\ SYLLABI_CACHE_TTL_MS cfg <= now - text_fetchedAt entry) ->
  getSyllabusText cfg world now url s
  = match fetchResult world url with
    | Normal text => (Normal text, withText (logged s (HttpGet url)) url text now)
    | Throw e => (Throw e, logged s (HttpGet url))
    end.
Proof.
  intros Hmiss. unfold getSyllabusText. unfold bind at 1. unfold getCache.
  assert (Hgo : forall k : Async string,
             match byUrl (syllabusCache s) !! url with
             | Some cached =>
                 if now - text_fetchedAt cached <? SYLLABI_CACHE_TTL_MS cfg
                 then ret (text_value cached) else k
             | None => k
             end = k).
  { intros k. destruct Hmiss as [-> | [entry [-> Hstale]]]; [reflexivity|].
    apply Z.ltb_ge in Hstale. now rewrite Hstale. }
  rewrite Hgo. unfold bind, setCache, ret. rewrite fetchText_run.
  now destruct (fetchResult world url).
Qed.

End CacheFacts.

(** C3. A cache entry that holds a value is served without a fetch while
    its age is below the TTL; from age TTL on, the read issues exactly one
    GET, stores what it fetched together with the time of the read, and
    returns it. This holds for the index slot and for every syllabus URL. *)
Theorem cache_read_ttl `{B : Builtins} (cfg : Config) (world : World) :
  (forall (u : string) (now : Z) (s : Store) (v : CourseIndex),
      SYLLABI_INDEX_URL cfg = Some u -> u <> "" ->
      index_value (index (syllabusCache s)) = Some v ->
      now - index_fetchedAt (index (syllabusCache s)) < SYLLABI_CACHE_TTL_MS cfg ->
      getSyllabiIndex cfg world now s = (Normal v, s))
  /\ (forall (u : string) (now : Z) (s : Store) (v parsed : CourseIndex),
      SYLLABI_INDEX_URL cfg = Some u -> u <> "" ->
      index_value (index (syllabusCache s)) = Some v ->
      SYLLABI_CACHE_TTL_MS cfg <= now - index_fetchedAt (index (syllabusCache s)) ->
      indexFetch world u = Normal parsed ->
      getSyllabiIndex cfg world now s
      = (Normal parsed,
         mkStore (mkCache (mkIndexEntry (Some parsed) now) (byUrl (syllabusCache s)))
                 (effects s ++ [HttpGet u])))
  /\ (forall (url : string) (now : Z) (s : Store) (entry : TextEntry),
      byUrl (syllabusCache s) !! url = Some entry ->
      now - text_fetchedAt entry < SYLLABI_CACHE_TTL_MS cfg ->
      getSyllabusText cfg world now url s = (Normal (text_value entry), s))
  /\ (forall (url : string) (now : Z) (s : Store) (entry : TextEntry) (text : string),
      byUrl (syllabusCache s) !! url = Some entry ->
      SYLLABI_CACHE_TTL_MS cfg <= now - text_fetchedAt entry ->
      fetchResult world url = Normal text ->
      getSyllabusText cfg world now url s
      = (Normal text,
         mkStore (mkCache (index (syllabusCache s))
                          (<[url := mkTextEntry text now]> (byUrl (syllabusCache s))))
                 (effects s ++ [HttpGet url]))).
Proof.
  repeat split.
  - intros u now s v Hu Hne Hv Hage. now apply (getSyllabiIndex_fresh cfg world u).
  - intros u now s v parsed Hu Hne Hv Hage Hfetch.
    rewrite (getSyllabiIndex_refresh cfg world u) by auto.
    now rewrite Hfetch.
  - intros url now s entry Hentry Hage. now apply getSyllabusText_fresh.
  - intros url now s entry text Hentry Hage Hfetch.
    rewrite getSyllabusText_refresh by (right; eauto).
    now rewrite Hfetch.
Qed.

Lemma cache_read_ttl_witness :
  getSyllabiIndex (B := sampleB) sampleConfig sampleWorld 2000 warmStore
  = (Normal [("Old", mkMeta None None)], warmStore)
  /\ getSyllabiIndex (B := sampleB) sampleConfig sampleWorld 901000 warmStore
     = (Normal sampleIndex,
        mkStore (mkCache (mkIndexEntry (Some sampleIndex) 901000)
                         (byUrl (syllabusCache warmStore)))
                [HttpGet sampleIndexUrl])
  /\ getSyllabusText sampleConfig sampleWorld 900999 sampleSyllabusUrl warmStore
     = (Normal "old text", warmStore)
  /\ getSyllabusText sampleConfig sampleWorld 901000 sampleSyllabusUrl warmStore
     = (Normal "Exam: 30 June.",
        mkStore (mkCache (index (syllabusCache warmStore))
                         (<[sampleSyllabusUrl := mkTextEntry "Exam: 30 June." 901000]>
                            (byUrl (syllabusCache warmStore))))
                [HttpGet sampleSyllabusUrl]).
Proof.
  destruct (cache_read_ttl (B := sampleB) sampleConfig sampleWorld) as [H1 [H2 [H3 H4]]].
  split; [|split; [|split]].
  - apply (H1 sampleIndexUrl); [reflexivity | discriminate | reflexivity | reflexivity].
  - apply (H2 sampleIndexUrl 901000 warmStore [("Old", mkMeta None None)]);
      [reflexivity | discriminate | reflexivity | discriminate | reflexivity].
  - apply (H3 sampleSyllabusUrl 900999 warmStore (mkTextEntry "old text" 1000));
      [reflexivity | reflexivity].
  - apply (H4 sampleSyllabusUrl 901000 warmStore (mkTextEntry "old text" 1000));
      [reflexivity | discriminate | reflexivity].
Defined.

(** C5. When the fetcher fails (the request is rejected, the response
    status is not a success, or, for the index, the body does not decode),
    the read throws that error and the cache is the one it found: neither
    the value nor [fetchedAt] of any entry is overwritten. *)
Theorem failed_fetch_keeps_cache `{B : Builtins} (cfg : Config) (world : World) :
  (forall (u : string) (now : Z) (s : Store) (e : JS.Error),
      SYLLABI_INDEX_URL cfg = Some u -> u <> "" ->
      index_value (index (syllabusCache s)) = None
      \/ SYLLABI_CACHE_TTL_MS cfg <= now - index_fetchedAt (index (syllabusCache s)) ->
      indexFetch world u = Throw e ->
      exists s', getSyllabiIndex cfg world now s = (Throw e, s')
                 /\ syllabusCache s' = syllabusCache s)
  /\ (forall (url : string) (now : Z) (s : Store) (e : JS.Error),
      byUrl (syllabusCache s) !! url = None
      \/ (exists entry, byUrl (syllabusCache s) !! url = Some entry
                        /\ SYLLABI_CACHE_TTL_MS cfg <= now - text_fetchedAt entry) ->
      fetchResult world url = Throw e ->
      exists s', getSyllabusText cfg world now url s = (Throw e, s')
                 /\ syllabusCache s' = syllabusCache s)
  /\ (forall (url : string) (status : nat) (text : string),
      http_get world url = HttpResponse status text -> resp_ok status = false ->
      fetchResult world url
      = Throw (JS.plainError ("Failed to fetch " +:+ url +:+ ": " +:+ Str.of_nat status))
      /\ indexFetch world url
         = Throw (JS.plainError ("Failed to fetch " +:+ url +:+ ": " +:+ Str.of_nat status)))
  /\ (forall (url raw : string) (e : JS.Error),
      fetchResult world url = Normal raw -> JSON_parse raw = Throw e ->
      indexFetch world url = Throw e).
Proof.
  repeat split.
  - intros u now s e Hu Hne Hmiss Hfetch. exists (logged s (HttpGet u)).
    rewrite (getSyllabiIndex_refresh cfg world u) by auto.
    now rewrite Hfetch.
  - intros url now s e Hmiss Hfetch. exists (logged s (HttpGet url)).
    rewrite getSyllabusText_refresh by auto.
    now rewrite Hfetch.
  - unfold fetchResult. now rewrite H, H0.
  - unfold indexFetch, fetchResult. now rewrite H, H0.
  - intros url raw e Hraw Hparse. unfold indexFetch. now rewrite Hraw.
Qed.

Lemma failed_fetch_keeps_cache_witness :
  (exists s', getSyllabiIndex (B := sampleB) sampleConfig downWorld 901000 warmStore
              = (Throw (JS.plainError ("Failed to fetch " +:+ sampleIndexUrl +:+ ": 503")), s')
              /\ syllabusCache s' = syllabusCache warmStore)
  /\ (exists s', getSyllabiIndex (B := sampleB) sampleConfig garbledWorld 901000 warmStore
                 = (Throw (JS.mkError "SyntaxError" "Unexpected token"), s')
                 /\ syllabusCache s' = syllabusCache warmStore)
  /\ (exists s', getSyllabusText sampleConfig downWorld 901000
                   "https://tim.example/other.txt" warmStore
                 = (Throw (JS.plainError "Failed to fetch https://tim.example/other.txt: 503"), s')
                 /\ syllabusCache s' = syllabusCache warmStore).
Proof.
  split; [|split].
  - destruct (failed_fetch_keeps_cache (B := sampleB) sampleConfig downWorld) as [H1 _].
    apply (H1 sampleIndexUrl); [reflexivity | discriminate | right; discriminate | reflexivity].
  - destruct (failed_fetch_keeps_cache (B := sampleB) sampleConfig garbledWorld) as [H1 _].
    apply (H1 sampleIndexUrl); [reflexivity | discriminate | right; discriminate | reflexivity].
  - destruct (failed_fetch_keeps_cache (B := sampleB) sampleConfig downWorld) as [_ [H2 _]].
    apply H2; [left; reflexivity | reflexivity].
Defined.

(** ** Effects *)

Lemma modelCalls_app (l1 l2 : list Effect) :
  modelCalls (l1 ++ l2) = modelCalls l1 ++ modelCalls l2.
Proof. unfold modelCalls. apply flat_map_app. Qed.

Lemma openaiPosts_app (l1 l2 : list Effect) :
  openaiPosts (l1 ++ l2) = openaiPosts l1 ++ openaiPosts l2.
Proof. unfold openaiPosts. apply flat_map_app. Qed.

Lemma since_refl (s : Store) : since s s [].
Proof. unfold since. now rewrite app_nil_r. Qed.

Lemma since_logged (s : Store) (e : Effect) : since s (logged s e) [e].
Proof. reflexivity. Qed.

Lemma since_trans (s1 s2 s3 : Store) (l1 l2 : list Effect) :
  since s1 s2 l1 -> since s2 s3 l2 -> since s1 s3 (l1 ++ l2).
Proof. unfold since. intros H1 H2. now rewrite H2, H1, app_assoc. Qed.

(** ** The model client *)

Lemma callLLM_run (cfg : Config) (world : World) (messages : list Value) (s : Store) :
  callLLM cfg world messages s
  = (llmResult cfg world messages,
     mkStore (syllabusCache s) (effects s ++ llmEffects cfg world messages)).
Proof.
  unfold callLLM, llmResult, llmEffects, bind, emit, throw, ret.
  destruct (String.eqb (PROVIDER cfg) "openai"); cbn [negb].
  - cbn [syllabusCache effects].
    destruct (openai world messages) as [e | status text | content];
      cbn [syllabusCache effects]; rewrite <- ?app_assoc; reflexivity.
  - reflexivity.
Qed.

Lemma llmEffects_calls (cfg : Config) (world : World) (messages : list Value) :
  modelCalls (llmEffects cfg world messages) = [messages].
Proof.
  unfold llmEffects. destruct (String.eqb (PROVIDER cfg) "openai"); [|reflexivity].
  now destruct (openai world messages).
Qed.

(** ** The syllabus block of the chat handler *)

Section BlockFacts.

Context `{B : Builtins}.
Variable cfg : Config.
Variable world : World.

Lemma getSyllabiIndex_cases (now : Z) (s : Store) :
  (exists e, getSyllabiIndex cfg world now s = (Throw e, s))
  \/ (exists v, getSyllabiIndex cfg world now s = (Normal v, s))
  \/ (exists u,
        getSyllabiIndex cfg world now s
        = match indexFetch world u with
          | Normal parsed => (Normal parsed, withIndex (logged s (HttpGet u)) parsed now)
          | Throw e => (Throw e, logged s (HttpGet u))
          end).
Proof.
  destruct (truthyStr (SYLLABI_INDEX_URL cfg)) eqn:Hcfg.
  - unfold truthyStr in Hcfg. destruct (SYLLABI_INDEX_URL cfg) as [u|] eqn:Hu; [|discriminate].
    apply nonempty_spec in Hcfg.
    destruct (index_value (index (syllabusCache s))) as [v|] eqn:Hv.
    + destruct (Z.lt_ge_cases (now - index_fetchedAt (index (syllabusCache s)))
                              (SYLLABI_CACHE_TTL_MS cfg)) as [Hfresh | Hstale].
      * right. left. exists v. now apply (getSyllabiIndex_fresh cfg world u).
      * right. right. exists u. apply getSyllabiIndex_refresh; auto.
    + right. right. exists u. apply getSyllabiIndex_refresh; auto.
  - left. eexists. now apply getSyllabiIndex_unconfigured.
Qed.

Lemma getSyllabusText_cases (now : Z) (url : string) (s : Store) :
  (exists text, getSyllabusText cfg world now url s = (Normal text, s))
  \/ getSyllabusText cfg world now url s
     = match fetchResult world url with
       | Normal text => (Normal text, withText (logged s (HttpGet url)) url text now)
       | Throw e => (Throw e, logged s (HttpGet url))
       end.
Proof.
  destruct (byUrl (syllabusCache s) !! url) as [entry|] eqn:Hentry.
  - destruct (Z.lt_ge_cases (now - text_fetchedAt entry) (SYLLABI_CACHE_TTL_MS cfg))
      as [Hfresh | Hstale].
    + left. exists (text_value entry). now apply getSyllabusText_fresh.
    + right. apply getSyllabusText_refresh. right. now exists entry.
  - right. apply getSyllabusText_refresh. now left.
Qed.

Lemma syllabusBlock_index_throws (clock : RequestClock) (lastText : string)
      (s s1 : Store) (e : JS.Error) :
  getSyllabiIndex cfg world (indexReadAt clock) s = (Throw e, s1) ->
  syllabusBlock cfg world clock lastText s
  = (Normal (Through None),
     logged s1 (ConsoleError ("Syllabus loading failed: " +:+ JS.errorToString e))).
Proof.
  intros H. unfold syllabusBlock, tryCatch, bind. now rewrite H.
Qed.

Lemma syllabusBlock_clarifies (clock : RequestClock) (lastText : string)
      (s s1 : Store) (indexObj : CourseIndex) :
  getSyllabiIndex cfg world (indexReadAt clock) s = (Normal indexObj, s1) ->
  truthyStr (findCourseFromUserText indexObj lastText) = false ->
  needsCourseTest lastText = true ->
  (1 < length (Object_keys indexObj))%nat ->
  syllabusBlock cfg world clock lastText s
  = (Normal (Returned (json 200 [("reply", VStr (clarification (Object_keys indexObj)))])),
     s1).
Proof.
  intros Hidx Hdet Hneeds Hmany. unfold syllabusBlock, tryCatch, bind.
  rewrite Hidx, Hdet, Hneeds. apply Nat.ltb_lt in Hmany. now rewrite Hmany.
Qed.

Lemma syllabusBlock_undetected (clock : RequestClock) (lastText : string)
      (s s1 : Store) (indexObj : CourseIndex) :
  getSyllabiIndex cfg world (indexReadAt clock) s = (Normal indexObj, s1) ->
  truthyStr (findCourseFromUserText indexObj lastText) = false ->
  needsCourseTest lastText && (1 <? length (Object_keys indexObj))%nat = false ->
  syllabusBlock cfg world clock lastText s = (Normal (Through None), s1).
Proof.
  intros Hidx Hdet Hgate. unfold syllabusBlock, tryCatch, bind.
  rewrite Hidx, Hdet. cbn [negb]. rewrite andb_true_l, Hgate.
  unfold truthyStr in Hdet.
  destruct (findCourseFromUserText indexObj lastText) as [name|]; [|reflexivity].
  now rewrite Hdet.
Qed.

Lemma syllabusBlock_detected (clock : RequestClock) (lastText : string)
      (s s1 : Store) (indexObj : CourseIndex) (name : string) :
  getSyllabiIndex cfg world (indexReadAt clock) s = (Normal indexObj, s1) ->
  findCourseFromUserText indexObj lastText = Some name ->
  name <> "" ->
  syllabusBlock cfg world clock lastText s
  = match index_get indexObj name ≫= syllabus_url with
    | Some u =>
        if Str.nonempty u
        then match getSyllabusText cfg world (syllabusReadAt clock) u s1 with
             | (Normal syllabusText, s2) =>
                 (Normal (Through (Some (syllabusMessage name syllabusText))), s2)
             | (Throw e, s2) =>
                 (Normal (Through None),
                  logged s2 (ConsoleError ("Syllabus loading failed: " +:+ JS.errorToString e)))
             end
        else (Normal (Through None), s1)
    | None => (Normal (Through None), s1)
    end.
Proof.
  intros Hidx Hdet Hname. apply nonempty_spec in Hname.
  unfold syllabusBlock, tryCatch, bind.
  rewrite Hidx, Hdet. cbn [truthyStr]. rewrite Hname. cbn [negb andb].
  destruct (index_get indexObj name ≫= syllabus_url) as [u|]; [|reflexivity].
  destruct (Str.nonempty u); [|reflexivity].
  now destruct (getSyllabusText cfg world (syllabusReadAt clock) u s1) as [[t|e] s2].
Qed.

End BlockFacts.

Section ChatFacts.

Context `{B : Builtins}.
Variable cfg : Config.
Variable world : World.

(** X22. The block leaves a syllabus message exactly when a course was
    detected and its syllabus text was retrieved. *)
Lemma syllabusBlock_through (clock : RequestClock) (lastText : string) (s s' : Store)
      (syl : option Value) :
  syllabusBlock cfg world clock lastText s = (Normal (Through syl), s') ->
  match syl with
  | Some m => exists name syllabusText,
      syllabusRetrieved cfg world clock lastText s name syllabusText
      /\ m = syllabusMessage name syllabusText
  | None => forall name syllabusText,
      ~ syllabusRetrieved cfg world clock lastText s name syllabusText
  end.
Proof.
  intros Hrun.
  destruct (getSyllabiIndex cfg world (indexReadAt clock) s) as [[indexObj | e] s1] eqn:Hidx.
  - destruct (truthyStr (findCourseFromUserText indexObj lastText)) eqn:Hdet.
    + unfold truthyStr in Hdet.
      destruct (findCourseFromUserText indexObj lastText) as [name|] eqn:Hfind; [|discriminate].
      apply nonempty_spec in Hdet.
      rewrite (syllabusBlock_detected cfg world clock lastText s s1 indexObj name Hidx Hfind Hdet)
        in Hrun.
      destruct (index_get indexObj name ≫= syllabus_url) as [u|] eqn:Hurl.
      * destruct (Str.nonempty u) eqn:Hu.
        -- apply nonempty_spec in Hu.
           destruct (getSyllabusText cfg world (syllabusReadAt clock) u s1) as [[t | e] s2] eqn:Htext;
             injection Hrun as <- <-.
           ++ exists name, t. split; [|reflexivity]. now exists indexObj, s1, u, s2.
           ++ intros name' t' (i' & s1' & u' & s2' & Hi & Hf & _ & Hu' & _ & Ht).
              rewrite Hidx in Hi. injection Hi as <- <-.
              rewrite Hfind in Hf. injection Hf as <-.
              rewrite Hurl in Hu'. injection Hu' as <-.
              rewrite Htext in Ht. discriminate.
        -- injection Hrun as <- <-.
           intros name' t' (i' & s1' & u' & s2' & Hi & Hf & _ & Hu' & Hne & _).
           rewrite Hidx in Hi. injection Hi as <- <-.
           rewrite Hfind in Hf. injection Hf as <-.
           rewrite Hurl in Hu'. injection Hu' as <-.
           apply nonempty_spec in Hne. congruence.
      * injection Hrun as <- <-.
        intros name' t' (i' & s1' & u' & s2' & Hi & Hf & _ & Hu' & _).
        rewrite Hidx in Hi. injection Hi as <- <-.
        rewrite Hfind in Hf. injection Hf as <-.
        rewrite Hurl in Hu'. discriminate.
    + assert (Hnone : forall name t, ~ syllabusRetrieved cfg world clock lastText s name t).
      { intros name' t' (i' & s1' & u' & s2' & Hi & Hf & Hne & _).
        rewrite Hidx in Hi. injection Hi as <- <-.
        rewrite Hf in Hdet. cbn [truthyStr] in Hdet.
        apply nonempty_spec in Hne. congruence. }
      destruct (needsCourseTest lastText && (1 <? length (Object_keys indexObj))%nat) eqn:Hgate.
      * apply andb_true_iff in Hgate as [Hneeds Hmany]. apply Nat.ltb_lt in Hmany.
        rewrite (syllabusBlock_clarifies cfg world clock lastText s s1 indexObj Hidx Hdet Hneeds Hmany)
          in Hrun. discriminate.
      * rewrite (syllabusBlock_undetected cfg world clock lastText s s1 indexObj Hidx Hdet Hgate)
          in Hrun. injection Hrun as <- <-. exact Hnone.
  - rewrite (syllabusBlock_index_throws cfg world clock lastText s s1 e Hidx) in Hrun.
    injection Hrun as <- <-.
    intros name' t' (i' & s1' & u' & s2' & Hi & _).
    rewrite Hidx in Hi. discriminate.
Qed.

(** ** The chat handler, path by path *)



End ChatFacts.

(** ** Detection on an empty text, and without any answering course *)

Lemma findCourse_no_answer `{B : Builtins} (indexObj : CourseIndex) (userText : string) :
  (forall entry, In entry indexObj -> ~ answersTo (toLowerCase userText) entry) ->
  findCourseFromUserText indexObj userText = None.
Proof.
  induction indexObj as [|[n m] rest IH]; intros Hnone; [reflexivity|].
  rewrite findCourse_miss by (apply Hnone; now left).
  apply IH. intros entry He. apply Hnone. now right.
Qed.

Lemma answersTo_empty `{B : Builtins} (entry : string * CourseMeta) : ~ answersTo "" entry.
Proof.
  intros [a [_ [Hne [pre [post Hocc]]]]].
  destruct pre as [|c pre]; [|discriminate].
  rewrite append_nil in Hocc.
  destruct (toLowerCase a) as [|c la]; [congruence | discriminate].
Qed.

Lemma findCourse_empty_text `{B : Builtins} (indexObj : CourseIndex) :
  findCourseFromUserText indexObj "" = None.
Proof.
  apply findCourse_no_answer. intros entry _.
  rewrite toLowerCase_empty. apply answersTo_empty.
Qed.

(** ** Sample indexes, and conversations without a user message *)

Lemma sample_no_answer (text : string) (indexObj : CourseIndex) :
  List.forallb
    (fun entry => negb (List.existsb (fun a => Str.includes (toLowerCase (Builtins := sampleB) text) a)
                                     (aliasList (B := sampleB) (fst entry) (snd entry))))
    indexObj = true ->
  forall entry, In entry indexObj ->
                ~ answersTo (B := sampleB) (toLowerCase (Builtins := sampleB) text) entry.
Proof.
  intros Hall [name meta] Hin Hans.
  rewrite forallb_forall in Hall. specialize (Hall _ Hin). cbn [fst snd] in Hall.
  apply (aliasList_hit (B := sampleB)) in Hans. rewrite Hans in Hall. discriminate.
Defined.

Lemma find_all_false {A : Type} (f : A -> bool) (l : list A) :
  (forall x, In x l -> f x = false) -> List.find f l = None.
Proof.
  induction l as [|x l IH]; intros H; [reflexivity|]. simpl.
  rewrite (H x) by now left. apply IH. intros y Hy. apply H. now right.
Qed.

Lemma strictEqStr_spec (v : Value) (s : string) :
  JS.strictEqStr v s = true <-> v = VStr s.
Proof.
  destruct v; simpl; try (split; [discriminate | intros H; discriminate]).
  rewrite String.eqb_eq. split; [now intros -> | now intros [= ->]].
Qed.

Lemma lastUser_none (messages : list Value) :
  (forall m, In m messages -> JS.optProp "role" m <> VStr "user") ->
  lastUser messages = VUndefined.
Proof.
  intros H. unfold lastUser. rewrite find_all_false; [reflexivity|].
  intros m Hm. apply in_rev in Hm.
  destruct (JS.strictEqStr (JS.optProp "role" m) "user") eqn:E; [|reflexivity].
  apply strictEqStr_spec in E. now apply H in Hm.
Qed.

(** ** Sample messages and fetch failures *)

Lemma wellFormed_msg (role content : string) :
  role = "system" \/ role = "user" \/ role = "assistant" ->
  wellFormedMessage (JS.msg role content).
Proof. intros Hrole. exists role, content. now repeat split. Defined.

Lemma syllabus_down_throws :
  syllabusFetchThrows (B := sampleB) sampleConfig syllabusDownWorld sampleClock
    "What is INNO about?" store0.
Proof.
  right. exists sampleIndex. eexists. exists "Innovation", sampleSyllabusUrl. eexists. eexists.
  repeat split; try discriminate; vm_compute; reflexivity.
Defined.

(** ** The debug endpoint *)

Section Debug.

Context `{B : Builtins}.
Variable cfg : Config.
Variable world : World.

(** C8, as the code has it. The debug endpoint answers 200 with
    [ok: true] and the course names when the index loads, and 500 with
    [ok: false] and the error text when loading throws; a missing index
    location is one such failure. *)
Theorem debug_index_status (now : Z) (s : Store) :
  (forall indexObj s1,
      getSyllabiIndex cfg world now s = (Normal indexObj, s1) ->
      get_debug_syllabi_index cfg world now s
      = (Normal (json 200 [("ok", VBool true);
                           ("courses", VArr (List.map VStr (Object_keys indexObj)))]),
         s1))
  /\ (forall e s1,
      getSyllabiIndex cfg world now s = (Throw e, s1) ->
      get_debug_syllabi_index cfg world now s
      = (Normal (json 500 [("ok", VBool false);
                           ("error", VStr (if Str.nonempty (JS.message e) then JS.message e
                                           else JS.errorToString e))]),
         s1))
  /\ (truthyStr (SYLLABI_INDEX_URL cfg) = false ->
      get_debug_syllabi_index cfg world now s
      = (Normal (json 500 [("ok", VBool false);
                           ("error", VStr "Missing SYLLABI_INDEX_URL env var")]),
         s)).
Proof.
  split; [|split].
  - intros indexObj s1 H. unfold get_debug_syllabi_index, tryCatch, bind. now rewrite H.
  - intros e s1 H. unfold get_debug_syllabi_index, tryCatch, bind. now rewrite H.
  - intros Hcfg. unfold get_debug_syllabi_index, tryCatch, bind.
    now rewrite (getSyllabiIndex_unconfigured cfg world now s Hcfg).
Qed.

End Debug.

Lemma debug_index_status_witness :
  get_debug_syllabi_index (B := sampleB) sampleConfig sampleWorld 5000 store0
  = (Normal (json 200 [("ok", VBool true);
                       ("courses", VArr [VStr "Innovation"; VStr "Strategy"])]),
     mkStore (mkCache (mkIndexEntry (Some sampleIndex) 5000) ∅) [HttpGet sampleIndexUrl])
  /\ get_debug_syllabi_index (B := sampleB) sampleConfig downWorld 5000 store0
     = (Normal (json 500 [("ok", VBool false);
                          ("error", VStr ("Failed to fetch " +:+ sampleIndexUrl +:+ ": 503"))]),
        mkStore syllabusCache0 [HttpGet sampleIndexUrl])
  /\ get_debug_syllabi_index (B := sampleB) unconfigured sampleWorld 5000 store0
     = (Normal (json 500 [("ok", VBool false);
                          ("error", VStr "Missing SYLLABI_INDEX_URL env var")]),
        store0).
Proof.
  split; [|split].
  - apply (proj1 (debug_index_status (B := sampleB) sampleConfig sampleWorld 5000 store0)
             sampleIndex).
    reflexivity.
  - apply (proj1 (proj2 (debug_index_status (B := sampleB) sampleConfig downWorld 5000 store0))
             (JS.plainError ("Failed to fetch " +:+ sampleIndexUrl +:+ ": 503"))).
    reflexivity.
  - apply (proj2 (proj2 (debug_index_status (B := sampleB) unconfigured sampleWorld 5000 store0))).
    reflexivity.
Defined.

(** The claim C8 as stated fails when the index location is not
    configured: the status is 500, not 200. *)
Lemma debug_index_failure_is_500 :
  fst (get_debug_syllabi_index (B := sampleB) unconfigured sampleWorld 5000 store0)
  = Normal (mkResponse 500
              (JsonBody (VObj [("ok", VBool false);
                               ("error", VStr "Missing SYLLABI_INDEX_URL env var")]))).
Proof. reflexivity. Qed.

(** ** Detection on sample indexes *)

Lemma findCourse_first_match_witness :
  findCourseFromUserText (B := sampleB) overlappingIndex "Where is the INNOVATION LAB?"
  = Some "Innovation"
  /\ findCourseFromUserText (B := sampleB) overlappingIndex "Where is the lab?"
     = Some "Innovation Lab"
  /\ findCourseFromUserText (B := sampleB) overlappingIndex "Where is the laboratory of the faculty?"
     = Some "Innovation Lab"
  /\ findCourseFromUserText (B := sampleB) overlappingIndex "Hello" = None.
Proof.
  split; [|split; [|split]].
  - apply (proj1 (findCourse_first_match (B := sampleB) overlappingIndex
                    "Where is the INNOVATION LAB?") [] "Innovation" (mkMeta None None)
                 (tl overlappingIndex)).
    + reflexivity.
    + intros e [].
    + apply (aliasList_hit (B := sampleB)). reflexivity.
  - apply (proj1 (findCourse_first_match (B := sampleB) overlappingIndex "Where is the lab?")
                 [("Innovation", mkMeta None None)] "Innovation Lab" (mkMeta (Some ["lab"]) None)
                 [("Strategy", mkMeta None None)]).
    + reflexivity.
    + apply sample_no_answer. reflexivity.
    + apply (aliasList_hit (B := sampleB)). reflexivity.
  - apply (proj1 (findCourse_first_match (B := sampleB) overlappingIndex
                    "Where is the laboratory of the faculty?")
                 [("Innovation", mkMeta None None)] "Innovation Lab" (mkMeta (Some ["lab"]) None)
                 [("Strategy", mkMeta None None)]).
    + reflexivity.
    + apply sample_no_answer. reflexivity.
    + apply (aliasList_hit (B := sampleB)). reflexivity.
  - apply (proj1 (proj2 (findCourse_first_match (B := sampleB) overlappingIndex "Hello"))).
    apply sample_no_answer. reflexivity.
Defined.

(** Course names are matched as plain substrings: a one-letter name such
    as A answers to any text that holds the letter. *)
Example one_letter_names_answer :
  findCourseFromUserText (B := sampleB)
    [("A", mkMeta None None); ("B", mkMeta None None)] "When is the exam?"
  = Some "A".
Proof. reflexivity. Qed.

Example keyword_pattern_samples :
  needsCourseTest "When is the exam?" = true
  /\ needsCourseTest "Wann ist die PRÜFUNG?" = true
  /\ needsCourseTest "Tell me about lead users" = false
  /\ needsCourseTest "" = false.
Proof. repeat split. Qed.

Example semester_labels :
  univieSemesterLabel (mkDate 5 2025 "2025-06-02" "10:15" "Monday") = "SS 2025"
  /\ univieSemesterLabel (mkDate 10 2025 "2025-11-03" "10:15" "Monday") = "WS 2025/26"
  /\ univieSemesterLabel (mkDate 0 2026 "2026-01-12" "10:15" "Monday") = "WS 2025/26"
  /\ univieSemesterLabel (mkDate 7 2025 "2025-08-04" "10:15" "Monday") = "Semester break (2025)".
Proof. repeat split. Qed.

(** * Further properties of the code *)

(** ** The cache: first reads, read after write, separate keys *)

Section CacheMore.

Context `{B : Builtins}.
Variable cfg : Config.
Variable world : World.

(** X1. A read that finds no entry goes to the fetcher whatever the clock
    says: the index slot as the module creates it (value null) and a URL
    that was never requested are fetched with one GET, and what was fetched
    is stored with the time of the read and returned. *)
Theorem first_read_fetches (now : Z) (s : Store) :
  (forall u parsed,
      SYLLABI_INDEX_URL cfg = Some u -> u <> "" ->
      index_value (index (syllabusCache s)) = None ->
      indexFetch world u = Normal parsed ->
      getSyllabiIndex cfg world now s
      = (Normal parsed,
         mkStore (mkCache (mkIndexEntry (Some parsed) now) (byUrl (syllabusCache s)))
                 (effects s ++ [HttpGet u])))
  /\ (forall url text,
      byUrl (syllabusCache s) !! url = None ->
      fetchResult world url = Normal text ->
      getSyllabusText cfg world now url s
      = (Normal text,
         mkStore (mkCache (index (syllabusCache s))
                          (<[url := mkTextEntry text now]> (byUrl (syllabusCache s))))
                 (effects s ++ [HttpGet url]))).
Proof.
  split.
  - intros u parsed Hu Hne Hnone Hfetch.
    rewrite (getSyllabiIndex_refresh cfg world u) by auto. now rewrite Hfetch.
  - intros url text Hnone Hfetch.
    rewrite getSyllabusText_refresh by auto. now rewrite Hfetch.
Qed.

Lemma not_since_self (s : Store) (e : Effect) : ~ since s s [e].
Proof.
  unfold since. intros H.
  rewrite <- (app_nil_r (effects s)) in H at 1.
  apply app_inv_head in H. discriminate.
Qed.

(** X2. Read after write. When a read of a URL went to the fetcher at time
    [now] and returned a text, every later read of that URL whose clock is
    less than the TTL past [now] returns the same text from the cache:
    no GET, store unchanged. The same holds for the index. *)
Theorem read_after_fetch_hits (now now' : Z) (s s1 : Store) :
  now' - now < SYLLABI_CACHE_TTL_MS cfg ->
  (forall url text,
      getSyllabusText cfg world now url s = (Normal text, s1) ->
      since s s1 [HttpGet url] ->
      getSyllabusText cfg world now' url s1 = (Normal text, s1))
  /\ (forall u parsed,
      getSyllabiIndex cfg world now s = (Normal parsed, s1) ->
      since s s1 [HttpGet u] ->
      getSyllabiIndex cfg world now' s1 = (Normal parsed, s1)).
Proof.
  intros Hage. split.
  - intros url text Hrun Hl.
    destruct (getSyllabusText_cases cfg world now url s) as [[t Hhit] | Hmiss].
    + rewrite Hhit in Hrun. injection Hrun as <- <-. now apply not_since_self in Hl.
    + rewrite Hmiss in Hrun. destruct (fetchResult world url) as [t|e]; [|discriminate].
      injection Hrun as <- <-.
      apply (getSyllabusText_fresh cfg world url now' _ (mkTextEntry t now)); [|exact Hage].
      cbn. apply lookup_insert_eq.
  - intros u parsed Hrun Hl.
    destruct (truthyStr (SYLLABI_INDEX_URL cfg)) eqn:Hcfg.
    2:{ rewrite (getSyllabiIndex_unconfigured cfg world now s Hcfg) in Hrun. discriminate. }
    unfold truthyStr in Hcfg.
    destruct (SYLLABI_INDEX_URL cfg) as [u0|] eqn:Hu0; [|discriminate].
    apply nonempty_spec in Hcfg.
    destruct (getSyllabiIndex_cases cfg world now s) as [[e He] | [[v Hv] | [u1 Hu1]]].
    + rewrite He in Hrun. discriminate.
    + rewrite Hv in Hrun. injection Hrun as <- <-. now apply not_since_self in Hl.
    + rewrite Hu1 in Hrun. destruct (indexFetch world u1) as [p|e]; [|discriminate].
      injection Hrun as <- <-.
      now apply (getSyllabiIndex_fresh cfg world u0 now' _ p).
Qed.

(** X3. The two kinds of key are cached apart. A read of one URL, whatever
    its outcome, leaves the entry of every other URL and the index slot as
    they were; a read of the index leaves every URL entry as it was. *)
Theorem reads_touch_only_their_key (now : Z) (s : Store) :
  (forall url url',
      url <> url' ->
      byUrl (syllabusCache (snd (getSyllabusText cfg world now url s))) !! url'
      = byUrl (syllabusCache s) !! url')
  /\ (forall url,
      index (syllabusCache (snd (getSyllabusText cfg world now url s)))
      = index (syllabusCache s))
  /\ byUrl (syllabusCache (snd (getSyllabiIndex cfg world now s)))
     = byUrl (syllabusCache s).
Proof.
  split; [|split].
  - intros url url' Hne.
    destruct (getSyllabusText_cases cfg world now url s) as [[t ->] | ->]; [reflexivity|].
    destruct (fetchResult world url); cbn; [now apply lookup_insert_ne | reflexivity].
  - intros url.
    destruct (getSyllabusText_cases cfg world now url s) as [[t ->] | ->]; [reflexivity|].
    now destruct (fetchResult world url).
  - destruct (getSyllabiIndex_cases cfg world now s) as [[e ->] | [[v ->] | [u ->]]];
      try reflexivity.
    now destruct (indexFetch world u).
Qed.

(** X4. A TTL of zero or less switches the cache off for a clock that does
    not run backwards: every read of the index and of a cached URL issues
    its GET again. *)
Theorem nonpositive_ttl_always_fetches (now : Z) (s : Store) :
  SYLLABI_CACHE_TTL_MS cfg <= 0 ->
  (forall u,
      SYLLABI_INDEX_URL cfg = Some u -> u <> "" ->
      index_fetchedAt (index (syllabusCache s)) <= now ->
      since s (snd (getSyllabiIndex cfg world now s)) [HttpGet u])
  /\ (forall url entry,
      byUrl (syllabusCache s) !! url = Some entry ->
      text_fetchedAt entry <= now ->
      since s (snd (getSyllabusText cfg world now url s)) [HttpGet url]).
Proof.
  intros Httl. split.
  - intros u Hu Hne Hclock.
    rewrite (getSyllabiIndex_refresh cfg world u) by (auto; right; lia).
    now destruct (indexFetch world u).
  - intros url entry Hentry Hclock.
    rewrite getSyllabusText_refresh by (right; exists entry; split; [assumption | lia]).
    now destruct (fetchResult world url).
Qed.

End CacheMore.

Lemma first_read_fetches_witness :
  getSyllabiIndex (B := sampleB) sampleConfig sampleWorld (-7) store0
  = (Normal sampleIndex,
     mkStore (mkCache (mkIndexEntry (Some sampleIndex) (-7)) (byUrl (syllabusCache store0)))
             (effects store0 ++ [HttpGet sampleIndexUrl]))
  /\ getSyllabusText sampleConfig sampleWorld (-7) sampleSyllabusUrl store0
     = (Normal "Exam: 30 June.",
        mkStore (mkCache (index (syllabusCache store0))
                         (<[sampleSyllabusUrl := mkTextEntry "Exam: 30 June." (-7)]>
                            (byUrl (syllabusCache store0))))
                (effects store0 ++ [HttpGet sampleSyllabusUrl])).
Proof.
  split.
  - apply (proj1 (first_read_fetches (B := sampleB) sampleConfig sampleWorld (-7) store0)
                 sampleIndexUrl sampleIndex); [reflexivity | discriminate | reflexivity | reflexivity].
  - apply (proj2 (first_read_fetches (B := sampleB) sampleConfig sampleWorld (-7) store0)
                 sampleSyllabusUrl "Exam: 30 June."); reflexivity.
Defined.

Lemma read_after_fetch_hits_witness :
  getSyllabusText sampleConfig sampleWorld 905999 sampleSyllabusUrl
    (snd (getSyllabusText sampleConfig sampleWorld 6000 sampleSyllabusUrl store0))
  = (Normal "Exam: 30 June.",
     snd (getSyllabusText sampleConfig sampleWorld 6000 sampleSyllabusUrl store0))
  /\ getSyllabiIndex (B := sampleB) sampleConfig sampleWorld 905999
       (snd (getSyllabiIndex (B := sampleB) sampleConfig sampleWorld 6000 store0))
     = (Normal sampleIndex,
        snd (getSyllabiIndex (B := sampleB) sampleConfig sampleWorld 6000 store0)).
Proof.
  split.
  - apply (proj1 (read_after_fetch_hits (B := sampleB) sampleConfig sampleWorld 6000 905999
                    store0 _ ltac:(reflexivity)) sampleSyllabusUrl "Exam: 30 June.");
      reflexivity.
  - apply (proj2 (read_after_fetch_hits (B := sampleB) sampleConfig sampleWorld 6000 905999
                    store0 _ ltac:(reflexivity)) sampleIndexUrl sampleIndex);
      reflexivity.
Defined.

Lemma nonpositive_ttl_always_fetches_witness :
  since warmStore
    (snd (getSyllabiIndex (B := sampleB) zeroTtlConfig sampleWorld 1000 warmStore))
    [HttpGet sampleIndexUrl]
  /\ since warmStore
       (snd (getSyllabusText zeroTtlConfig sampleWorld 1000 sampleSyllabusUrl warmStore))
       [HttpGet sampleSyllabusUrl].
Proof.
  split.
  - apply (proj1 (nonpositive_ttl_always_fetches (B := sampleB) zeroTtlConfig sampleWorld
                    1000 warmStore ltac:(discriminate)) sampleIndexUrl);
      [reflexivity | discriminate | discriminate].
  - apply (proj2 (nonpositive_ttl_always_fetches (B := sampleB) zeroTtlConfig sampleWorld
                    1000 warmStore ltac:(discriminate)) sampleSyllabusUrl
                 (mkTextEntry "old text" 1000)); [reflexivity | discriminate].
Defined.

(** ** Detection: what it returns, and how it behaves when the index grows *)

Section DetectionMore.

Context `{B : Builtins}.

(** X5. Detection only returns names the index can resolve: a returned
    course name is one of the keys of the index, and the lookup the handler
    performs with it finds an entry. *)
Theorem detected_course_is_indexed (indexObj : CourseIndex) (userText name : string) :
  findCourseFromUserText indexObj userText = Some name ->
  In name (Object_keys indexObj)
  /\ exists meta, index_get indexObj name = Some meta.
Proof.
  induction indexObj as [|[k m] rest IH]; [discriminate|].
  simpl. destruct (List.existsb _ (aliasList k m)).
  - intros [= <-]. split; [now left|]. exists m. now rewrite String.eqb_refl.
  - intros Hrest. destruct (IH Hrest) as [Hin [meta Hmeta]]. split; [now right|].
    destruct (String.eqb k name); eauto.
Qed.

(** X6. First match is stable when courses are appended: a detection made
    on an index is the detection made on any extension of it, and a text
    that no course of the index answers to is decided by the appended
    courses alone. *)
Theorem detection_stable_under_append (indexObj more : CourseIndex) (userText : string) :
  (forall name,
      findCourseFromUserText indexObj userText = Some name ->
      findCourseFromUserText (indexObj ++ more) userText = Some name)
  /\ (findCourseFromUserText indexObj userText = None ->
      findCourseFromUserText (indexObj ++ more) userText
      = findCourseFromUserText more userText).
Proof.
  induction indexObj as [|[k m] rest [IH1 IH2]]; [split; [discriminate | reflexivity]|].
  simpl. destruct (List.existsb _ (aliasList k m)); split; auto; discriminate.
Qed.

End DetectionMore.

Lemma detected_course_is_indexed_witness :
  In "Innovation Lab" (Object_keys overlappingIndex)
  /\ exists meta, index_get overlappingIndex "Innovation Lab" = Some meta.
Proof.
  apply (detected_course_is_indexed (B := sampleB) overlappingIndex "Where is the lab?").
  reflexivity.
Defined.

(** ** The keyword pattern *)

Lemma caseFold_app (b : bool) (x y : string) :
  caseFold b (x +:+ y) = caseFold b x +:+ caseFold (carry b x) y.
Proof.
  revert b. induction x as [|c x IH]; intros b; [reflexivity|].
  rewrite append_cons. cbn [caseFold carry]. rewrite IH. now rewrite append_cons.
Qed.

Lemma keywords_fold_to_themselves (b : bool) (k : string) :
  In k keywords -> caseFold b k = k.
Proof.
  intros Hin. destruct b;
    repeat (destruct Hin as [<- | Hin]; [reflexivity|]); destruct Hin.
Qed.

Lemma needsCourseTest_spec (text : string) :
  needsCourseTest text = true
  <-> exists k, In k keywords /\ Str.occurs_in k (caseFold false text).
Proof.
  unfold needsCourseTest. rewrite existsb_exists.
  split; intros [k [Hin H]]; exists k; (split; [exact Hin|]); now apply includes_spec.
Qed.

(** X7. The pattern has no word boundaries: a text that holds one of the
    sixteen keywords anywhere, also inside a longer word, passes the test,
    whatever stands before and after it. *)
Theorem keyword_anywhere_matches (k pre post : string) :
  In k keywords -> needsCourseTest (pre +:+ k +:+ post) = true.
Proof.
  intros Hin. apply needsCourseTest_spec. exists k. split; [exact Hin|].
  rewrite !caseFold_app. rewrite (keywords_fold_to_themselves _ k Hin).
  now exists (caseFold false pre), (caseFold (carry (carry false pre) k) post).
Qed.

Lemma lower_ascii_facts (c : ascii) :
  Str.lower_ascii (Str.lower_ascii c) = Str.lower_ascii c
  /\ (nat_of_ascii (Str.lower_ascii c) =? 195)%nat = (nat_of_ascii c =? 195)%nat
  /\ (nat_of_ascii (Str.lower_ascii c) =? 156)%nat = (nat_of_ascii c =? 156)%nat.
Proof.
  destruct c as [b0 b1 b2 b3 b4 b5 b6 b7].
  destruct b0, b1, b2, b3, b4, b5, b6, b7; vm_compute; repeat split.
Qed.

Lemma caseFold_lower (b : bool) (text : string) :
  caseFold b (Str.map_bytes Str.lower_ascii text) = caseFold b text.
Proof.
  revert b. induction text as [|c text IH]; intros b; [reflexivity|].
  cbn [Str.map_bytes caseFold].
  destruct (lower_ascii_facts c) as [Hidem [H195 H156]].
  rewrite H195, H156, Hidem, IH. reflexivity.
Qed.

(** X8. The test ignores ASCII case: two texts that agree once their ASCII
    letters are lower-cased get the same verdict. *)
Theorem keyword_test_ignores_ascii_case (text1 text2 : string) :
  Str.map_bytes Str.lower_ascii text1 = Str.map_bytes Str.lower_ascii text2 ->
  needsCourseTest text1 = needsCourseTest text2.
Proof.
  intros H. unfold needsCourseTest.
  now rewrite <- (caseFold_lower false text1), <- (caseFold_lower false text2), H.
Qed.

Lemma keyword_anywhere_matches_witness :
  needsCourseTest ("Meine " +:+ "note" +:+ "books sind weg") = true.
Proof. apply keyword_anywhere_matches. do 5 right. now left. Defined.

Lemma keyword_test_ignores_ascii_case_witness :
  needsCourseTest "WHEN IS THE EXAM?" = needsCourseTest "when is the Exam?".
Proof. apply keyword_test_ignores_ascii_case. reflexivity. Defined.

(** ** The detection text *)

Lemma find_first_hit {A : Type} (f : A -> bool) (l1 l2 : list A) (x : A) :
  (forall y, In y l1 -> f y = false) -> f x = true ->
  List.find f (l1 ++ x :: l2) = Some x.
Proof.
  intros Hmiss Hhit. induction l1 as [|y l1 IH]; simpl.
  - now rewrite Hhit.
  - rewrite (Hmiss y) by now left. apply IH. intros z Hz. apply Hmiss. now right.
Qed.

Lemma lastUser_last (pre post : list Value) (m : Value) :
  JS.optProp "role" m = VStr "user" ->
  (forall x, In x post -> JS.optProp "role" x <> VStr "user") ->
  lastUser (pre ++ m :: post) = m.
Proof.
  intros Hrole Hpost. unfold lastUser.
  rewrite rev_app_distr. simpl. rewrite <- app_assoc. simpl.
  rewrite find_first_hit; [reflexivity | | now apply strictEqStr_spec].
  intros y Hy. apply in_rev in Hy.
  destruct (JS.strictEqStr (JS.optProp "role" y) "user") eqn:E; [|reflexivity].
  apply strictEqStr_spec in E. now apply Hpost in Hy.
Qed.

(** X9. The detection text comes from the last message with the user role
    and from nothing else: whatever precedes it, and whatever non-user
    messages follow it, the text is its string content (the empty string
    when the content is empty; no earlier user message is consulted). *)
Theorem detection_text_is_last_user_turn (pre post : list Value) (m : Value)
    (content : string) :
  JS.optProp "role" m = VStr "user" ->
  JS.optProp "content" m = VStr content ->
  (forall x, In x post -> JS.optProp "role" x <> VStr "user") ->
  lastUserText (pre ++ m :: post) = Normal content.
Proof.
  intros Hrole Hcontent Hpost. unfold lastUserText.
  rewrite (lastUser_last pre post m Hrole Hpost), Hcontent. simpl.
  now destruct content.
Qed.

Lemma detection_text_is_last_user_turn_witness :
  lastUserText ([JS.msg "user" "When is the exam?"; JS.msg "assistant" "Which course?"]
                ++ JS.msg "user" "" :: [JS.msg "assistant" "Hello?"])
  = Normal "".
Proof.
  apply detection_text_is_last_user_turn; [reflexivity | reflexivity |].
  intros x [<- | []]. discriminate.
Defined.

(** ** The clarification reply and the semester label *)

Lemma append_assoc (a b c : string) : (a +:+ b) +:+ c = a +:+ (b +:+ c).
Proof.
  induction a as [|x a IH]; [reflexivity|].
  rewrite !append_cons. now rewrite IH.
Qed.

Lemma join_lists_each (sep : string) (xs : list string) (x : string) :
  In x xs -> Str.occurs_in x (Str.join sep xs).
Proof.
  induction xs as [|y [|z rest] IH]; intros Hin; [destruct Hin | |].
  - destruct Hin as [<- | []]. exists "", "". simpl.
    rewrite append_nil. clear. induction y as [|c y IH]; [reflexivity|].
    rewrite append_cons. now rewrite <- IH.
  - change (Str.join sep (y :: z :: rest)) with (y +:+ sep +:+ Str.join sep (z :: rest)).
    destruct Hin as [<- | Hin].
    + now exists "", (sep +:+ Str.join sep (z :: rest)).
    + destruct (IH Hin) as [pre [post Hocc]].
      exists (y +:+ sep +:+ pre), post. rewrite Hocc.
      now rewrite !append_assoc.
Qed.

(** X10. The clarification reply names every course it was given: each
    course name occurs in the reply text. *)
Theorem clarification_names_every_course (courseList : list string) (name : string) :
  In name courseList -> Str.occurs_in name (clarification courseList).
Proof.
  intros Hin. destruct (join_lists_each " / " courseList name Hin) as [pre [post Hocc]].
  unfold clarification.
  exists ("Für welchen TIM-Kurs meinst du das? (" +:+ pre), (post +:+ ")").
  rewrite Hocc. now rewrite !append_assoc.
Qed.

Lemma clarification_names_every_course_witness :
  Str.occurs_in "Strategy" (clarification (Object_keys sampleIndex)).
Proof. apply clarification_names_every_course. right. now left. Defined.

(** X11. The winter-semester label does not change at the turn of the
    year: January of the following year is labelled as October to December
    are; and February and July to September carry the semester-break label
    of their year. *)
Theorem semester_label_over_new_year (d1 d2 : DateObj) :
  (9 <= getMonth d1 <= 11 -> getMonth d2 = 0 -> getFullYear d2 = getFullYear d1 + 1 ->
   univieSemesterLabel d2 = univieSemesterLabel d1)
  /\ (getMonth d1 = 1 \/ 6 <= getMonth d1 <= 8 ->
      univieSemesterLabel d1 = "Semester break (" +:+ Str.of_Z (getFullYear d1) +:+ ")").
Proof.
  unfold univieSemesterLabel. split.
  - intros Hm1 Hm2 Hy. rewrite Hm2, Hy. cbn [Z.add Z.leb Z.compare andb Z.eqb].
    replace (getFullYear d1 + 1 - 1) with (getFullYear d1) by lia.
    destruct (3 <=? getMonth d1 + 1) eqn:E1, (getMonth d1 + 1 <=? 6) eqn:E2,
             (10 <=? getMonth d1 + 1) eqn:E3, (getMonth d1 + 1 <=? 12) eqn:E4;
      try reflexivity; lia.
  - intros Hm.
    destruct (3 <=? getMonth d1 + 1) eqn:E1, (getMonth d1 + 1 <=? 6) eqn:E2,
             (10 <=? getMonth d1 + 1) eqn:E3, (getMonth d1 + 1 <=? 12) eqn:E4,
             (getMonth d1 + 1 =? 1) eqn:E5;
      try reflexivity; lia.
Qed.

Lemma semester_label_over_new_year_witness :
  univieSemesterLabel (mkDate 0 2100 "2100-01-01" "00:05" "Friday")
  = univieSemesterLabel (mkDate 11 2099 "2099-12-31" "23:55" "Thursday").
Proof.
  apply (proj1 (semester_label_over_new_year
                  (mkDate 11 2099 "2099-12-31" "23:55" "Thursday")
                  (mkDate 0 2100 "2100-01-01" "00:05" "Friday")));
    [simpl; lia | reflexivity | reflexivity].
Defined.

(** ** Whole requests: traffic, responses, cache contents *)

Lemma httpGets_app (l1 l2 : list Effect) :
  httpGets (l1 ++ l2) = httpGets l1 ++ httpGets l2.
Proof. unfold httpGets. apply flat_map_app. Qed.

Lemma llmEffects_traffic (cfg : Config) (world : World) (messages : list Value) :
  httpGets (llmEffects cfg world messages) = []
  /\ (length (openaiPosts (llmEffects cfg world messages)) <= 1)%nat.
Proof.
  unfold llmEffects. destruct (String.eqb (PROVIDER cfg) "openai"); [|simpl; split; [reflexivity | lia]].
  destruct (openai world messages); simpl; split; (reflexivity || lia).
Qed.

Lemma cacheGrows_refl (c : SyllabusCache) : cacheGrows c c.
Proof. now split. Qed.

Lemma cacheGrows_trans (c1 c2 c3 : SyllabusCache) :
  cacheGrows c1 c2 -> cacheGrows c2 c3 -> cacheGrows c1 c3.
Proof. intros [Hi1 Hu1] [Hi2 Hu2]. split; auto. Qed.

Lemma quietRun_refl (n : nat) (s : Store) : quietRun n s s.
Proof.
  exists []. split; [apply since_refl|].
  split; [reflexivity | split; [reflexivity | split; [simpl; lia | apply cacheGrows_refl]]].
Qed.

Lemma quietRun_logged (n : nat) (s s' : Store) (text : string) :
  quietRun n s s' -> quietRun n s (logged s' (ConsoleError text)).
Proof.
  intros [l [Hl [Hm [Hp [Hg Hc]]]]]. exists (l ++ [ConsoleError text]). split.
  - apply (since_trans s s'); [exact Hl | apply since_logged].
  - rewrite modelCalls_app, openaiPosts_app, httpGets_app, Hm, Hp. simpl.
    rewrite app_nil_r. split; [reflexivity | split; [reflexivity | split; assumption]].
Qed.

Lemma quietRun_trans (n1 n2 : nat) (s1 s2 s3 : Store) :
  quietRun n1 s1 s2 -> quietRun n2 s2 s3 -> quietRun (n1 + n2) s1 s3.
Proof.
  intros [l1 [Hl1 [Hm1 [Hp1 [Hg1 Hc1]]]]] [l2 [Hl2 [Hm2 [Hp2 [Hg2 Hc2]]]]].
  exists (l1 ++ l2). split; [now apply (since_trans s1 s2 s3)|].
  rewrite modelCalls_app, openaiPosts_app, httpGets_app, Hm1, Hm2, Hp1, Hp2, length_app.
  split; [reflexivity | split; [reflexivity | split]];
    [lia | now apply (cacheGrows_trans _ (syllabusCache s2))].
Qed.

Lemma quietRun_weaken (n m : nat) (s s' : Store) :
  (n <= m)%nat -> quietRun n s s' -> quietRun m s s'.
Proof.
  intros Hle [l [Hl [Hm [Hp [Hg Hc]]]]]. exists l.
  split; [exact Hl | split; [exact Hm | split; [exact Hp | split; [lia | exact Hc]]]].
Qed.

Section RequestFacts.

Context `{B : Builtins}.
Variable cfg : Config.
Variable world : World.

Lemma getSyllabiIndex_quiet (now : Z) (s : Store) :
  quietRun 1 s (snd (getSyllabiIndex cfg world now s)).
Proof.
  destruct (getSyllabiIndex_cases cfg world now s) as [[e ->] | [[v ->] | [u ->]]];
    try apply quietRun_refl.
  exists [HttpGet u]. destruct (indexFetch world u); cbn; repeat split; auto.
Qed.

Lemma getSyllabusText_quiet (now : Z) (url : string) (s : Store) :
  quietRun 1 s (snd (getSyllabusText cfg world now url s)).
Proof.
  destruct (getSyllabusText_cases cfg world now url s) as [[t ->] | ->];
    [apply quietRun_refl|].
  exists [HttpGet url].
  destruct (fetchResult world url); cbn [snd]; unfold withText, logged;
    cbn [syllabusCache byUrl index effects]; repeat split; auto.
  intros u Hu. cbn [byUrl]. destruct (decide (url = u)) as [<- | Hne].
  - rewrite lookup_insert_eq. now eexists.
  - now rewrite lookup_insert_ne.
Qed.

(** X21. The syllabus block: it completes normally with at most two GETs
    and no model traffic, evicts nothing, and returns a response exactly in the
    ask-back case. *)
Lemma syllabusBlock_summary (clock : RequestClock) (lastText : string) (s : Store) :
  exists flow s1,
    syllabusBlock cfg world clock lastText s = (Normal flow, s1)
    /\ quietRun 2 s s1
    /\ (forall r, flow = Returned r <->
                  exists indexObj,
                    getSyllabiIndex cfg world (indexReadAt clock) s = (Normal indexObj, s1)
                    /\ truthyStr (findCourseFromUserText indexObj lastText) = false
                    /\ needsCourseTest lastText = true
                    /\ (1 < length indexObj)%nat
                    /\ r = json 200 [("reply", VStr (clarification (Object_keys indexObj)))]).
Proof.
  pose proof (getSyllabiIndex_quiet (indexReadAt clock) s) as Hq0.
  destruct (getSyllabiIndex cfg world (indexReadAt clock) s) as [[indexObj | e] s1] eqn:Hidx;
    cbn [snd] in Hq0.
  - destruct (truthyStr (findCourseFromUserText indexObj lastText)) eqn:Hdet.
    + assert (Hno : forall (r : Response) (s2 : Store),
                 ~ exists i, (Normal indexObj, s1) = (Normal i, s2)
                             /\ truthyStr (findCourseFromUserText i lastText) = false
                             /\ needsCourseTest lastText = true
                             /\ (1 < length i)%nat
                             /\ r = json 200 [("reply", VStr (clarification (Object_keys i)))]).
      { intros r s2 [i [[= <- <-] [Hd _]]]. congruence. }
      pose proof Hdet as Hdet'. unfold truthyStr in Hdet.
      destruct (findCourseFromUserText indexObj lastText) as [name|] eqn:Hfind; [|discriminate].
      apply nonempty_spec in Hdet.
      rewrite (syllabusBlock_detected cfg world clock lastText s s1 indexObj name Hidx Hfind Hdet).
      destruct (index_get indexObj name ≫= syllabus_url) as [u|].
      2:{ eexists _, s1. split; [reflexivity|]. split; [apply (quietRun_weaken 1); [lia | exact Hq0]|].
          intros r. split; [discriminate | intros H; now apply Hno in H]. }
      destruct (Str.nonempty u).
      2:{ eexists _, s1. split; [reflexivity|]. split; [apply (quietRun_weaken 1); [lia | exact Hq0]|].
          intros r. split; [discriminate | intros H; now apply Hno in H]. }
      pose proof (getSyllabusText_quiet (syllabusReadAt clock) u s1) as Hq1.
      destruct (getSyllabusText cfg world (syllabusReadAt clock) u s1) as [[t | e] s2];
        cbn [snd] in Hq1.
      * eexists _, s2. split; [reflexivity|].
        split; [now apply (quietRun_trans 1 1 s s1 s2)|].
        intros r. split; [discriminate | intros H; now apply Hno in H].
      * eexists _, _. split; [reflexivity|].
        split; [apply quietRun_logged; now apply (quietRun_trans 1 1 s s1 s2)|].
        intros r. split; [discriminate | intros H; now apply Hno in H].
    + destruct (needsCourseTest lastText && (1 <? length (Object_keys indexObj))%nat) eqn:Hgate.
      * apply andb_true_iff in Hgate as [Hneeds Hmany]. apply Nat.ltb_lt in Hmany.
        rewrite (syllabusBlock_clarifies cfg world clock lastText s s1 indexObj Hidx Hdet Hneeds Hmany).
        eexists _, s1. split; [reflexivity|]. split; [apply (quietRun_weaken 1); [lia | exact Hq0]|].
        unfold Object_keys in Hmany. rewrite length_map in Hmany.
        intros r. split.
        -- intros [= <-]. exists indexObj. auto.
        -- intros [i [[= <-] [_ [_ [_ ->]]]]]. reflexivity.
      * rewrite (syllabusBlock_undetected cfg world clock lastText s s1 indexObj Hidx Hdet Hgate).
        eexists _, s1. split; [reflexivity|]. split; [apply (quietRun_weaken 1); [lia | exact Hq0]|].
        intros r. split; [discriminate|].
        intros [i [[= <-] [_ [Hneeds [Hmany _]]]]].
        rewrite Hneeds in Hgate. unfold Object_keys in Hgate. rewrite length_map in Hgate.
        apply Nat.ltb_lt in Hmany. rewrite Hmany in Hgate. discriminate.
  - rewrite (syllabusBlock_index_throws cfg world clock lastText s s1 e Hidx).
    eexists _, _. split; [reflexivity|].
    split; [apply quietRun_logged; apply (quietRun_weaken 1); [lia | exact Hq0]|].
    intros r. split; [discriminate | intros [i [[=] _]]].
Qed.

End RequestFacts.

Section RequestProperties.

Context `{B : Builtins}.
Variable cfg : Config.
Variable world : World.

(** X18. The debug endpoint always answers, does to the store exactly what
    one read of the index does, issues at most one GET and never reaches
    the model client or the per-URL entries. *)
Theorem debug_endpoint_is_an_index_read (now : Z) (s : Store) :
  exists r l,
    get_debug_syllabi_index cfg world now s
    = (Normal r, snd (getSyllabiIndex cfg world now s))
    /\ since s (snd (getSyllabiIndex cfg world now s)) l
    /\ (length (httpGets l) <= 1)%nat
    /\ modelCalls l = [] /\ openaiPosts l = []
    /\ byUrl (syllabusCache (snd (getSyllabiIndex cfg world now s))) = byUrl (syllabusCache s).
Proof.
  destruct (getSyllabiIndex_quiet cfg world now s) as [l [Hl [Hm [Hp [Hg _]]]]].
  assert (Hby : byUrl (syllabusCache (snd (getSyllabiIndex cfg world now s)))
                = byUrl (syllabusCache s)).
  { destruct (getSyllabiIndex_cases cfg world now s) as [[e ->] | [[v ->] | [u ->]]];
      try reflexivity.
    now destruct (indexFetch world u). }
  unfold get_debug_syllabi_index, tryCatch, bind.
  destruct (getSyllabiIndex cfg world now s) as [[idx | e] s1];
    eexists _, l; (split; [reflexivity|]); auto.
Qed.

(** X19. The handler of server.js never touches the syllabus machinery: it
    issues no GET and leaves the cache as it is; for an array of messages
    with a readable detection text it calls the model client once, with
    the runtime-context message and its own persona before the
    conversation, and answers from what the client completes with. *)
Theorem serverjs_chat_is_a_relay (now : DateObj) (reqBody : Value) (s : Store) :
  exists r s' l,
    ServerJs.post_api_chat cfg world now reqBody s = (Normal r, s')
    /\ since s s' l
    /\ httpGets l = []
    /\ syllabusCache s' = syllabusCache s
    /\ (forall messages lastText,
          JS.getProp "messages" reqBody = Normal (VArr messages) ->
          lastUserText messages = Normal lastText ->
          modelCalls l
          = [runtimeContextMessage now lastText :: ServerJs.systemMessage :: messages]
          /\ r = chatResponse
                   (llmResult cfg world
                      (runtimeContextMessage now lastText :: ServerJs.systemMessage :: messages))).
Proof.
  unfold ServerJs.post_api_chat, tryCatch, bind, lift.
  destruct (JS.getProp "messages" reqBody) as [mv | e] eqn:Hbody.
  2:{ eexists _, _, [_]. split; [reflexivity|]. split; [apply since_logged|].
      split; [reflexivity|]. split; [reflexivity|]. intros ms t [=]. }
  destruct (JS.isArray mv) eqn:Harr.
  2:{ exists (json 400 [("error", VStr "messages must be an array")]), s, [].
      split; [now destruct mv|]. split; [apply since_refl|].
      split; [reflexivity|]. split; [reflexivity|].
      intros ms t [= ->]. discriminate. }
  destruct mv as [| | | | | messages |]; try discriminate. clear Harr.
  destruct (lastUserText messages) as [lastText | e] eqn:Htext.
  2:{ eexists _, _, [_]. split; [reflexivity|]. split; [apply since_logged|].
      split; [reflexivity|]. split; [reflexivity|].
      intros ms t [= <-] Ht. rewrite Htext in Ht. discriminate. }
  rewrite callLLM_run.
  set (out := runtimeContextMessage now lastText :: ServerJs.systemMessage :: messages).
  destruct (llmEffects_traffic cfg world out) as [Hg _].
  pose proof (llmEffects_calls cfg world out) as Hm.
  destruct (llmResult cfg world out) as [reply | err] eqn:Hres.
  - eexists _, _, (llmEffects cfg world out). split; [reflexivity|].
    split; [reflexivity|]. split; [exact Hg|]. split; [reflexivity|].
    intros ms t [= <-] Ht. rewrite Htext in Ht. injection Ht as <-.
    fold out. rewrite Hres. now split.
  - eexists _, _, (llmEffects cfg world out ++ [_]). split; [reflexivity|].
    split; [unfold since, emit; cbn [effects snd]; now rewrite <- app_assoc|].
    split; [rewrite httpGets_app, Hg; reflexivity|]. split; [reflexivity|].
    intros ms t [= <-] Ht. rewrite Htext in Ht. injection Ht as <-.
    fold out. rewrite modelCalls_app, Hm, Hres. now split.
Qed.

End RequestProperties.

(** ** The chat handler stops at the semester label *)

Section ChatStops.

Context `{B : Builtins}.
Variable cfg : Config.
Variable world : World.




End ChatStops.



(** C1, at the request of the specification's scenario against an index of
    two courses. The last user message answers to no course and passes the
    keyword test, the index that would be fetched lists two courses, and
    the syllabus block of the handler, run on its own, returns the
    clarification. The handler does not get that far: it answers the
    generic 500, and the error of the semester label is all it leaves
    behind. The model client is not called, as the claim says; the
    clarification is not sent. *)
Theorem clarification_not_reached :
  lastUserText examQuestion = Normal "When is the exam?"
  /\ fst (getSyllabiIndex (B := sampleB) sampleConfig sampleWorld
            (indexReadAt sampleClock) store0) = Normal sampleIndex
  /\ findCourseFromUserText (B := sampleB) sampleIndex "When is the exam?" = None
  /\ needsCourseTest "When is the exam?" = true
  /\ Object_keys sampleIndex = ["Innovation"; "Strategy"]
  /\ clarification ["Innovation"; "Strategy"]
     = "Für welchen TIM-Kurs meinst du das? (Innovation / Strategy)"
  /\ fst (syllabusBlock (B := sampleB) sampleConfig sampleWorld sampleClock
            "When is the exam?" store0)
     = Normal (Returned (json 200 [("reply", VStr (clarification ["Innovation"; "Strategy"]))]))
  /\ post_api_chat (B := sampleB) sampleConfig sampleWorld sampleClock
       (chatBody examQuestion) store0
     = (Normal serverError, logged store0 semesterLabelError).
Proof.
  repeat split; vm_compute; reflexivity.
Qed.


(** C6, at a well-formed request sent while every document GET is answered
    503 and the model endpoint is healthy. The index read throws, the
    syllabus block run on its own catches that and leaves no syllabus
    message, and the model client would answer the sequence of runtime
    context, persona and conversation. The handler answers the generic
    500 all the same, without a GET and without calling the model. The
    same holds when only the syllabus document is missing. *)
Theorem fetch_failure_request_fails :
  Forall wellFormedMessage examQuestion
  /\ syllabusFetchThrows (B := sampleB) sampleConfig downWorld sampleClock
       "When is the exam?" store0
  /\ fst (syllabusBlock (B := sampleB) sampleConfig downWorld sampleClock
            "When is the exam?" store0)
     = Normal (Through None)
  /\ llmResult sampleConfig downWorld
       (outbound (runtimeContextMessage (requestDate sampleClock) "When is the exam?")
          systemMessage None examQuestion)
     = Normal "Antwort"
  /\ post_api_chat (B := sampleB) sampleConfig downWorld sampleClock
       (chatBody examQuestion) store0
     = (Normal serverError, logged store0 semesterLabelError)
  /\ Forall wellFormedMessage innovationQuestion
  /\ syllabusFetchThrows (B := sampleB) sampleConfig syllabusDownWorld sampleClock
       "What is INNO about?" store0
  /\ post_api_chat (B := sampleB) sampleConfig syllabusDownWorld sampleClock
       (chatBody innovationQuestion) store0
     = (Normal serverError, logged store0 semesterLabelError).
Proof.
  split; [repeat constructor; apply wellFormed_msg; auto|].
  split; [left; eexists; eexists; vm_compute; reflexivity|].
  split; [vm_compute; reflexivity|].
  split; [vm_compute; reflexivity|].
  split; [vm_compute; reflexivity|].
  split; [repeat constructor; apply wellFormed_msg; auto|].
  split; [exact syllabus_down_throws | vm_compute; reflexivity].
Qed.

(** C9, at a well-formed conversation of a system and an assistant message.
    The detection text is empty, no course is detected on it, the keyword
    test fails, the syllabus block run on its own passes through without a
    syllabus message, and the model client would answer the sequence of
    runtime context, persona and conversation. The handler answers the
    generic 500 and the model is not called. *)
Theorem no_user_turn_request_fails :
  Forall wellFormedMessage noUserTurn
  /\ lastUser noUserTurn = VUndefined
  /\ lastUserText noUserTurn = Normal ""
  /\ findCourseFromUserText (B := sampleB) sampleIndex "" = None
  /\ needsCourseTest "" = false
  /\ fst (syllabusBlock (B := sampleB) sampleConfig sampleWorld sampleClock "" store0)
     = Normal (Through None)
  /\ llmResult sampleConfig sampleWorld
       (outbound (runtimeContextMessage (requestDate sampleClock) "")
          systemMessage None noUserTurn)
     = Normal "Antwort"
  /\ post_api_chat (B := sampleB) sampleConfig sampleWorld sampleClock
       (chatBody noUserTurn) store0
     = (Normal serverError, logged store0 semesterLabelError).
Proof.
  split; [repeat constructor; apply wellFormed_msg; auto|].
  repeat split; vm_compute; reflexivity.
Qed.

(** C10, at the request of C1 in a deployment whose provider is not
    openai. The syllabus block run on its own returns the clarification
    before the model client and its provider check are entered, and the
    model client would throw the unsupported-provider error. The handler
    answers 500 and not the clarification; the error it logs is the one of
    the semester label, not the one of the provider check, which is never
    reached. *)
Theorem other_provider_request_fails :
  PROVIDER otherProviderConfig = "openrouter"
  /\ fst (syllabusBlock (B := sampleB) otherProviderConfig sampleWorld sampleClock
            "When is the exam?" store0)
     = Normal (Returned (json 200 [("reply", VStr (clarification ["Innovation"; "Strategy"]))]))
  /\ llmResult otherProviderConfig sampleWorld
       (outbound (runtimeContextMessage (requestDate sampleClock) "When is the exam?")
          systemMessage None examQuestion)
     = Throw (JS.plainError "Unsupported PROVIDER=openrouter. Set PROVIDER=openai.")
  /\ post_api_chat (B := sampleB) otherProviderConfig sampleWorld sampleClock
       (chatBody examQuestion) store0
     = (Normal serverError, logged store0 semesterLabelError).
Proof.
  repeat split; vm_compute; reflexivity.
Qed.

(** ** The syllabus block on its own *)

Section BlockProperties.

Context `{B : Builtins}.
Variable cfg : Config.
Variable world : World.


(** X24. A conversation without a user message gives the empty detection
    text; on it no course is detected, the keyword test fails, and the
    block goes on without a syllabus message and without asking back. *)
Theorem no_user_turn_passes_the_block (clock : RequestClock) (messages : list Value)
        (s : Store) :
  (forall m, In m messages -> JS.optProp "role" m <> VStr "user") ->
  lastUserText messages = Normal ""
  /\ (forall indexObj, findCourseFromUserText indexObj "" = None)
  /\ needsCourseTest "" = false
  /\ fst (syllabusBlock cfg world clock "" s) = Normal (Through None).
Proof.
  intros Hnone. split; [|split; [|split]].
  - unfold lastUserText. now rewrite (lastUser_none messages Hnone).
  - apply findCourse_empty_text.
  - reflexivity.
  - destruct (getSyllabiIndex cfg world (indexReadAt clock) s) as [[indexObj | e] s1] eqn:Hidx.
    + rewrite (syllabusBlock_undetected cfg world clock "" s s1 indexObj Hidx);
        [reflexivity | now rewrite findCourse_empty_text | reflexivity].
    + now rewrite (syllabusBlock_index_throws cfg world clock "" s s1 e Hidx).
Qed.

End BlockProperties.

Lemma syllabusBlock_through_witness :
  exists name syllabusText,
    syllabusRetrieved (B := sampleB) sampleConfig sampleWorld sampleClock
      "What is INNO about?" store0 name syllabusText
    /\ syllabusMessage "Innovation" "Exam: 30 June." = syllabusMessage name syllabusText.
Proof.
  apply (syllabusBlock_through (B := sampleB) sampleConfig sampleWorld sampleClock
           "What is INNO about?" store0
           (snd (syllabusBlock (B := sampleB) sampleConfig sampleWorld sampleClock
                   "What is INNO about?" store0))
           (Some (syllabusMessage "Innovation" "Exam: 30 June."))).
  vm_compute. reflexivity.
Defined.


Lemma no_user_turn_passes_the_block_witness :
  lastUserText noUserTurn = Normal ""
  /\ (forall indexObj, findCourseFromUserText (B := sampleB) indexObj "" = None)
  /\ needsCourseTest "" = false
  /\ fst (syllabusBlock (B := sampleB) sampleConfig sampleWorld sampleClock "" store0)
     = Normal (Through None).
Proof.
  apply (no_user_turn_passes_the_block (B := sampleB) sampleConfig sampleWorld sampleClock
           noUserTurn store0).
  intros m [<- | [<- | []]]; discriminate.
Defined.
